(** * Diabetic Retinopathy prediction front-end ([app_svm.py])

    A shallow embedding of the Streamlit script [app_svm.py] and the
    properties of its observable behaviour.

    The script is a straight-line program that is re-executed from the top
    on every interaction.  One execution is modelled as a computation in a
    small writer-and-exception monad [App]: the writer part collects, in
    order, the elements the script puts on the page and the calls it makes
    to the classifier; the exception part is Python's [raise], which aborts
    the execution at the first uncaught exception.

    Python [float]s are IEEE-754 binary64 numbers and are modelled by Rocq's
    primitive floats, which are the same numbers with the same correctly
    rounded operations.  Python [int]s are modelled by [Z].

    What lies outside the script (the network, the unpickled classifier, the
    animation component, the person in front of the form, the configured
    theme) is collected in a record [Env], over which the theorems quantify.

    Lines 21-49 (page configuration, CSS, title), 100-129 (sidebar) and
    280-284 (footer) only emit constant text; of these the title, the
    description and the footer are kept as page elements and the rest is left
    out of the trace. *)

From Stdlib Require Import ZArith List String Ascii Bool Lia.
From Stdlib Require Import Floats DecimalString.
Import ListNotations.

Local Open Scope string_scope.
Local Open Scope list_scope.
Local Open Scope Z_scope.

(** ** Exceptions and results *)

Inductive exn : Type :=
| FileNotFoundError
| UnpicklingError
| ConnectionError
| Timeout
| JSONDecodeError
| IndexError
| ValueError
| StreamlitAPIException.

Inductive result (A : Type) : Type :=
| Ok (a : A)
| Raise (e : exn).

Arguments Ok {A} a.
Arguments Raise {A} e.

(** ** Python sequence indexing

    [xs[i]] for a list or an array: a negative index counts from the end,
    and an index outside [-len, len) raises [IndexError]. *)

Definition py_index {A : Type} (xs : list A) (i : Z) : result A :=
  let n := Z.of_nat (List.length xs) in
  let j := if i <? 0 then i + n else i in
  if (0 <=? j) && (j <? n) then
    match nth_error xs (Z.to_nat j) with
    | Some x => Ok x
    | None => Raise IndexError
    end
  else Raise IndexError.

(** ** Formatting a float with the format specification [.2f]

    Python prints the decimal numeral with two fractional digits that is
    nearest to the exact binary value, ties going to the even neighbour; the
    sign is kept even when the magnitude rounds to zero; the non-finite
    values print as [nan], [inf] and [-inf]. *)

Definition round_half_even (num den : Z) : Z :=
  let q := num / den in
  let r := num mod den in
  match 2 * r ?= den with
  | Lt => q
  | Gt => q + 1
  | Eq => if Z.even q then q else q + 1
  end.

(** The magnitude [m * 2^e] in hundredths, rounded to an integer. *)
Definition hundredths (m : positive) (e : Z) : Z :=
  if 0 <=? e then Zpos m * 2 ^ e * 100
  else round_half_even (Zpos m * 100) (2 ^ (- e)).

Definition digit_char (d : Z) : ascii := ascii_of_N (48 + Z.to_N d).

Definition decimal (n : Z) : string :=
  NilZero.string_of_uint (N.to_uint (Z.to_N n)).

Definition two_digits (n : Z) : string :=
  String (digit_char (n / 10)) (String (digit_char (n mod 10)) EmptyString).

Definition fixed2 (negative : bool) (h : Z) : string :=
  (if negative then "-" else "") ++ decimal (h / 100) ++ "." ++ two_digits (h mod 100).

Definition format_2f_spec (x : spec_float) : string :=
  match x with
  | S754_nan => "nan"
  | S754_infinity s => if s then "-inf" else "inf"
  | S754_zero s => fixed2 s 0
  | S754_finite s m e => fixed2 s (hundredths m e)
  end.

Definition format_2f (x : float) : string := format_2f_spec (Prim2SF x).

Definition is_real (x : spec_float) : bool :=
  match x with
  | S754_zero _ | S754_finite _ _ _ => true
  | _ => false
  end.

Definition is_finite (x : float) : bool := is_real (Prim2SF x).


(** ** The page trace and the [App] monad *)

#[local] Unset Elimination Schemes.
Inductive json : Type :=
| JNull
| JBool (b : bool)
| JInt (n : Z)
| JFloat (x : float)
| JString (s : string)
| JArray (items : list json)
| JObject (members : list (string * json)).
#[local] Set Elimination Schemes.

(** Python truthiness of a decoded JSON document ([None] is [JNull]). *)
Definition truthy (v : json) : bool :=
  match v with
  | JNull => false
  | JBool b => b
  | JInt n => negb (n =? 0)
  | JFloat x => negb (x =? 0)%float
  | JString s => negb (String.eqb s "")
  | JArray items => match items with [] => false | _ => true end
  | JObject members => match members with [] => false | _ => true end
  end.

Inductive cell : Type :=
| VInt (n : Z)
| VFloat (x : float).

(** A data frame: the column labels in order, and one list of cells per row. *)
Record DataFrame : Type := {
  columns : list string;
  records : list (list cell)
}.

(** [pd.DataFrame([d1, ...])] for dictionaries that share their keys: the
    columns are the keys in insertion order. *)
Definition pd_DataFrame (dicts : list (list (string * cell))) : DataFrame :=
  {| columns := match dicts with d :: _ => map fst d | [] => [] end;
     records := map (map snd) dicts |}.

Record Step : Type := {
  step_range : Z * Z;
  step_color : string
}.

(** The arguments of [go.Indicator] at lines 245-265. *)
Record Indicator : Type := {
  mode : string;
  value : float;
  title_text : string;
  axis_range : Z * Z;
  bar_color : string;
  steps : list Step;
  threshold_line_color : string;
  threshold_line_width : Z;
  threshold_thickness : float;
  threshold_value : float
}.

Inductive event : Type :=
| Title (text : string)
| Markdown (text : string)
| Caption (text : string)
| Lottie (animation : json) (height : Z)
| Warning (text : string)
| ErrorBox (text : string)
| SuccessBox (text : string)
| Expander (label body : string)
| PlotlyChart (figure : Indicator)
| DownloadButton (label data file_name : string)
| ModelCall (method : string) (frame : DataFrame).

Definition trace : Type := list event.

Definition App (A : Type) : Type := trace * result A.

Definition ret {A : Type} (a : A) : App A := ([], Ok a).

Definition raise {A : Type} (e : exn) : App A := ([], Raise e).

Definition bind {A B : Type} (m : App A) (k : A -> App B) : App B :=
  match m with
  | (t1, Ok a) => let (t2, r) := k a in (t1 ++ t2, r)
  | (t1, Raise e) => (t1, Raise e)
  end.

Definition emit (ev : event) : App unit := ([ev], Ok tt).

Definition lift {A : Type} (r : result A) : App A := ([], r).

Notation "x <- m ;; k" := (bind m (fun x => k))
  (at level 61, m at next level, right associativity).
Notation "m ;;; k" := (bind m (fun _ => k))
  (at level 61, right associativity).

(** A list comprehension whose body may raise: the elements are computed
    from left to right and the first exception ends the comprehension. *)
Fixpoint for_each {A B : Type} (f : A -> App B) (xs : list A) : App (list B) :=
  match xs with
  | [] => ret []
  | x :: rest => y <- f x ;; ys <- for_each f rest ;; ret (y :: ys)
  end.

Definition page (A : Type) (m : App A) : trace := fst m.
Definition outcome (A : Type) (m : App A) : result A := snd m.
Arguments page {A} m.
Arguments outcome {A} m.

Definition completes {A : Type} (m : App A) : bool :=
  match outcome m with Ok _ => true | Raise _ => false end.

(** ** The world outside the script *)

(** What [requests.get] hands back when it returns: the status code and the
    body as [r.json()] decodes it, [None] standing for a body that is not
    JSON (for which [r.json()] raises [JSONDecodeError]). *)
Record Response : Type := {
  status_code : Z;
  json_body : option json
}.

(** The unpickled pipeline, through the two methods the script calls. *)
Record Model : Type := {
  predict : DataFrame -> result (list Z);
  predict_proba : DataFrame -> result (list (list float))
}.

(** What a numeric widget does with an entry outside its bounds. *)
Inductive enforcement : Type := Clamp | Reject.

(** [lottie_component] is what the package [streamlit_lottie] does with the
    document and the height that [st_lottie] is called with: it draws the
    animation, or it raises (the package refuses a document that it cannot
    take for an animation).  The package is not part of the sources, and
    nothing is assumed about which documents it accepts. *)
Record Env : Type := {
  artifact : result Model;
  requests_get : string -> result Response;
  lottie_component : json -> Z -> result unit;
  theme_base : option string;
  out_of_range : enforcement;
  age_entries : list Z;
  systolic_entries : list float;
  cholesterol_entries : list float;
  diastolic_entries : list float;
  submitted : bool
}.

(** ** Streamlit primitives *)

Definition st_title (text : string) : App unit := emit (Title text).
Definition st_markdown (text : string) : App unit := emit (Markdown text).
Definition st_caption (text : string) : App unit := emit (Caption text).
Definition st_warning (text : string) : App unit := emit (Warning text).
Definition st_error (text : string) : App unit := emit (ErrorBox text).
Definition st_success (text : string) : App unit := emit (SuccessBox text).
Definition st_expander (label body : string) : App unit := emit (Expander label body).
Definition st_plotly_chart (figure : Indicator) : App unit := emit (PlotlyChart figure).
Definition st_download_button (label data file_name : string) : App unit :=
  emit (DownloadButton label data file_name).

(** [st_lottie] of the package [streamlit_lottie]: the animation is on the
    page when the component has taken the document, and an exception of the
    component leaves the page as it was. *)
Definition st_lottie (env : Env) (animation : json) (height : Z) : App unit :=
  lift (lottie_component env animation height) ;;;
  emit (Lottie animation height).

(** Modelled from the spec: [st.number_input] is Streamlit's widget and its
    implementation is not part of the sources.  The widget starts at [value];
    each entry of the user inside [[min_value, max_value]] becomes the
    widget's value, and an entry outside is clamped to the nearer bound or
    rejected (the widget keeps its value), as section 4.2 of the
    specification has it.  The result is the value the widget holds when the
    form is read. *)
Definition commit {T : Type} (leb : T -> T -> bool) (min_value max_value : T)
    (policy : enforcement) (current entry : T) : T :=
  if leb min_value entry && leb entry max_value then entry
  else match policy with
       | Reject => current
       | Clamp => if leb entry min_value then min_value else max_value
       end.

Definition number_input {T : Type} (leb : T -> T -> bool) (min_value max_value value : T)
    (policy : enforcement) (entries : list T) : T :=
  fold_left (commit leb min_value max_value policy) entries value.

(** ** Lines 12-16: the model loader *)

Definition load_model (env : Env) : App Model := lift (artifact env).

(** ** Lines 65-96: the two animations *)

Definition load_lottie_url (env : Env) (url : string) : App json :=
  r <- lift (requests_get env url) ;;
  if negb (status_code r =? 200) then ret JNull
  else match json_body r with
       | Some doc => ret doc
       | None => raise JSONDecodeError
       end.

Definition urls : list string :=
  [ "https://assets1.lottiefiles.com/packages/lf20_3vbOcw.json";
    "https://assets2.lottiefiles.com/packages/lf20_tutvdkg0.json" ].

Definition animation_slot (env : Env) (animations : list json) (i : Z) : App unit :=
  a <- lift (py_index animations i) ;;
  if truthy a then st_lottie env a 250
  else st_warning "⚠️ Animation couldn't load.".

Definition welcome (env : Env) : App unit :=
  st_markdown "### 👋 Welcome to Your Eye Health Companion" ;;;
  animations <- for_each (load_lottie_url env) urls ;;
  animation_slot env animations 0 ;;;
  animation_slot env animations 1.

(** ** Lines 136-151: the input form *)

Record PredictionRequest : Type := {
  age : Z;
  systolic_bp : float;
  diastolic_bp : float;
  cholesterol : float
}.

Definition input_form (env : Env) : PredictionRequest :=
  let age := number_input Z.leb 30 105 50 (out_of_range env) (age_entries env) in
  let systolic_bp :=
    number_input PrimFloat.leb 70%float 130%float 120%float (out_of_range env) (systolic_entries env) in
  let cholesterol :=
    number_input PrimFloat.leb 70%float 130%float 90%float (out_of_range env) (cholesterol_entries env) in
  let diastolic_bp :=
    number_input PrimFloat.leb 60%float 120%float 80%float (out_of_range env) (diastolic_entries env) in
  {| age := age; systolic_bp := systolic_bp;
     diastolic_bp := diastolic_bp; cholesterol := cholesterol |}.

Definition in_domain (req : PredictionRequest) : bool :=
  (30 <=? age req) && (age req <=? 105)
  && (70 <=? systolic_bp req)%float && (systolic_bp req <=? 130)%float
  && (60 <=? diastolic_bp req)%float && (diastolic_bp req <=? 120)%float
  && (70 <=? cholesterol req)%float && (cholesterol req <=? 130)%float.

(** ** Lines 160-170: the prediction invoker *)

Definition input_df (req : PredictionRequest) : DataFrame :=
  pd_DataFrame
    [ [ ("age", VInt (age req));
        ("systolic_bp", VFloat (systolic_bp req));
        ("diastolic_bp", VFloat (diastolic_bp req));
        ("cholesterol", VFloat (cholesterol req)) ] ].

Definition model_predict (model : Model) (frame : DataFrame) : App (list Z) :=
  emit (ModelCall "predict" frame) ;;; lift (predict model frame).

Definition model_predict_proba (model : Model) (frame : DataFrame) : App (list (list float)) :=
  emit (ModelCall "predict_proba" frame) ;;; lift (predict_proba model frame).

Definition invoke (model : Model) (req : PredictionRequest) : App (Z * float) :=
  let input_df := input_df req in
  labels <- model_predict model input_df ;;
  prediction <- lift (py_index labels 0) ;;
  probabilities <- model_predict_proba model input_df ;;
  pred_proba <- lift (py_index probabilities 0) ;;
  confidence <- lift (py_index pred_proba prediction) ;;
  ret (prediction, confidence).

(** ** Lines 175-200: the derived metrics and their box *)

Definition pulse_pressure (systolic_bp diastolic_bp : float) : float :=
  (systolic_bp - diastolic_bp)%float.

Definition mean_arterial_pressure (systolic_bp diastolic_bp : float) : float :=
  ((systolic_bp + 2 * diastolic_bp) / 3)%float.

Definition derived_metrics (systolic_bp diastolic_bp : float) : float * float :=
  (pulse_pressure systolic_bp diastolic_bp, mean_arterial_pressure systolic_bp diastolic_bp).

Definition is_dark (env : Env) : bool :=
  match theme_base env with
  | Some theme => String.eqb theme "dark"
  | None => false
  end.

Definition derived_box (bg_color text_color : string) (pulse_pressure mean_arterial_pressure : float) : string :=
  "
        <div style='
            padding: 10px;
            background-color: " ++ bg_color ++ ";
            color: " ++ text_color ++ ";
            border-radius: 10px;
            margin-top: 10px;
        '>
            <b>Pulse Pressure:</b> "
  ++ format_2f pulse_pressure ++ " mmHg<br>
            <b>Mean Arterial Pressure:</b> "
  ++ format_2f mean_arterial_pressure ++ " mmHg
        </div>
    ".

Definition what_to_do_next : string :=
  "
            - 👨‍⚕️ **Please consult an eye care specialist or diabetologist immediately.**
            - 🏥 Early treatment can help prevent vision loss.
            - 📘 You can read more at:
                - [American Diabetes Association](https://diabetes.org/health-wellness/eye-health)
                - [WHO on Diabetic Retinopathy](https://www.who.int/news-room/fact-sheets/detail/blindness-and-visual-impairment)
                - [Find a Retina Specialist Near You](https://www.centreforsight.net/eye-specialists-near-me)
            - 💊 Discuss your medications, blood sugar control, and eye care plan with a certified provider.
            ".

Definition wellness_tip : string :=
  "
            - 👁️ It's still important to get your eyes checked **annually**.
            - 🥗 Maintain a healthy diet and regular exercise.
            - 📖 Learn about prevention: [NIH Diabetic Eye Disease Info](https://www.nei.nih.gov/learn-about-eye-health/eye-conditions-and-diseases/diabetic-retinopathy)
            ".

(** ** Lines 206-234: the result message *)

Definition result_message (prediction : Z) (confidence : float) : App unit :=
  st_markdown "### 🔍 Prediction Result" ;;;
  if prediction =? 1 then
    st_error ("🧪 The model predicts **presence** of Diabetic Retinopathy (Confidence: "
              ++ format_2f confidence ++ ")") ;;;
    st_expander "📢 What to Do Next?" what_to_do_next
  else
    st_success ("✅ The model predicts **no signs** of Diabetic Retinopathy (Confidence: "
                ++ format_2f confidence ++ ")") ;;;
    st_expander "💡 Wellness Tip" wellness_tip.

(** ** Lines 243-267: the confidence gauge *)

Definition gauge (prediction : Z) (confidence : float) : Indicator :=
  {| mode := "gauge+number";
     value := (confidence * 100)%float;
     title_text := if prediction =? 1 then "Confidence in DR Presence (%)"
                   else "Confidence in No DR (%)";
     axis_range := (0, 100);
     bar_color := if prediction =? 0 then "green" else "red";
     steps := [ {| step_range := (0, 50); step_color := "#d4edda" |};
                {| step_range := (50, 75); step_color := "#fff3cd" |};
                {| step_range := (75, 100); step_color := "#f8d7da" |} ];
     threshold_line_color := "black";
     threshold_line_width := 4;
     threshold_thickness := 0.75%float;
     threshold_value := (confidence * 100)%float |}.

(** ** Lines 272-278: the report *)

Definition nl : string := String (ascii_of_N 10) EmptyString.

(** The condition of [... if prediction else ...]: an integer is true unless
    it is zero. *)
Definition label_text (prediction : Z) : string :=
  if negb (prediction =? 0) then "DR Present" else "No DR".

Definition report (prediction : Z) (confidence pulse_pressure mean_arterial_pressure : float)
    : string :=
  nl ++ "Prediction: " ++ label_text prediction ++ nl
  ++ "Confidence: " ++ format_2f confidence ++ nl
  ++ "Pulse Pressure: " ++ format_2f pulse_pressure ++ nl
  ++ "Mean Arterial Pressure: " ++ format_2f mean_arterial_pressure ++ nl.

Definition report_file_name : string := "dr_prediction_report.txt".

(** ** Lines 157-278: what a submission triggers *)

Definition render (env : Env) (prediction : Z) (confidence : float)
    (pulse_pressure mean_arterial_pressure : float) : App unit :=
  let bg_color := if is_dark env then "#2b2b2b" else "#f0f0f5" in
  let text_color := if is_dark env then "#ffffff" else "#000000" in
  st_markdown (derived_box bg_color text_color pulse_pressure mean_arterial_pressure) ;;;
  result_message prediction confidence ;;;
  st_markdown "### 📊 Model Confidence Level" ;;;
  st_plotly_chart (gauge prediction confidence) ;;;
  st_download_button "📄 Download Report"
    (report prediction confidence pulse_pressure mean_arterial_pressure)
    report_file_name.

Definition on_submit (env : Env) (model : Model) (req : PredictionRequest) : App unit :=
  r <- invoke model req ;;
  let '(prediction, confidence) := r in
  let '(pulse_pressure, mean_arterial_pressure) :=
    derived_metrics (systolic_bp req) (diastolic_bp req) in
  render env prediction confidence pulse_pressure mean_arterial_pressure.

(** ** The whole script *)

Definition app (env : Env) : App unit :=
  model <- load_model env ;;
  st_title "👁️🩺 Diabetic Retinopathy Prediction App" ;;;
  st_markdown "This app predicts whether a person shows signs of diabetic retinopathy based on input health features." ;;;
  welcome env ;;;
  let req := input_form env in
  (if submitted env then on_submit env model req else ret tt) ;;;
  st_markdown "---" ;;;
  st_caption "👨‍⚕️ Created with ❤️ by Sathwik Patel using Streamlit".

(** ** Observations on a trace *)

(** The classifier calls recorded in a trace, in order. *)
Fixpoint model_calls (t : trace) : list (string * DataFrame) :=
  match t with
  | [] => []
  | ModelCall method frame :: rest => (method, frame) :: model_calls rest
  | _ :: rest => model_calls rest
  end.

Definition both_calls (frame : DataFrame) : list (string * DataFrame) :=
  [("predict", frame); ("predict_proba", frame)].

(** ** The classifier's contract *)

Definition is_probability (p : float) : bool := ((0 <=? p) && (p <=? 1))%float.

(** Modelled from the spec: the pickled pipeline [retinopathy_model_svm.pkl]
    is not among the sources.  Sections 3, 4.1 and 6 of the specification
    describe what it must do: over a record of the four raw fields in their
    fixed order, [predict] yields one label out of 0 (absent) and 1
    (present), and [predict_proba] yields the probability vector of the two
    classes, each entry a real number between 0 and 1. *)
Definition fitted_binary_classifier (model : Model) : Prop :=
  forall req : PredictionRequest,
    in_domain req = true ->
    exists (label : Z) (p0 p1 : float),
      predict model (input_df req) = Ok [label]
      /\ (label = 0 \/ label = 1)
      /\ predict_proba model (input_df req) = Ok [[p0; p1]]
      /\ is_probability p0 = true
      /\ is_probability p1 = true.

(** ** Sample classifiers, networks and sessions *)

(** A classifier that looks at the age cell only and raises on a frame of
    any other shape. *)
Definition age_model : Model :=
  {| predict := fun frame =>
       match records frame with
       | [[VInt a; VFloat _; VFloat _; VFloat _]] => Ok [if 60 <=? a then 1 else 0]
       | _ => Raise ValueError
       end;
     predict_proba := fun frame =>
       match records frame with
       | [[VInt a; VFloat _; VFloat _; VFloat _]] =>
           Ok [if 60 <=? a then [0.25; 0.75]%float else [0.75; 0.25]%float]
       | _ => Raise ValueError
       end |}.

(** A classifier whose label is not the more probable class. *)
Definition contrarian_model : Model :=
  {| predict := fun _ => Ok [1];
     predict_proba := fun _ => Ok [[0.75; 0.25]%float] |}.

Definition lottie_document : json :=
  JObject [("v", JString "5.5.7"); ("layers", JArray [JObject [("ty", JInt 4)]])].

Definition healthy_network (url : string) : result Response :=
  Ok {| status_code := 200; json_body := Some lottie_document |}.

Definition not_found_network (url : string) : result Response :=
  Ok {| status_code := 404; json_body := None |}.

(** The server answers 200 with a body that is not JSON. *)
Definition malformed_network (url : string) : result Response :=
  Ok {| status_code := 200; json_body := None |}.

Definition timeout_network (url : string) : result Response := Raise Timeout.

(** An animation component that draws a JSON object and refuses every other
    document. *)
Definition object_component (animation : json) (height : Z) : result unit :=
  match animation with
  | JObject _ => Ok tt
  | _ => Raise StreamlitAPIException
  end.

(** A session in which the form is submitted with its default values. *)
Definition default_session (network : string -> result Response) : Env :=
  {| artifact := Ok age_model;
     requests_get := network;
     lottie_component := object_component;
     theme_base := None;
     out_of_range := Reject;
     age_entries := [];
     systolic_entries := [];
     cholesterol_entries := [];
     diastolic_entries := [];
     submitted := true |}.

Definition default_request : PredictionRequest :=
  {| age := 50; systolic_bp := 120; diastolic_bp := 80; cholesterol := 90 |}.

(** The elements of a trace that show the prediction. *)
Definition shows_error (t : trace) : bool :=
  existsb (fun ev => match ev with ErrorBox _ => true | _ => false end) t.

Definition shows_success (t : trace) : bool :=
  existsb (fun ev => match ev with SuccessBox _ => true | _ => false end) t.

Definition shows_markdown (text : string) (t : trace) : bool :=
  existsb (fun ev => match ev with Markdown s => String.eqb s text | _ => false end) t.

Definition downloads (t : trace) : list (string * string) :=
  flat_map (fun ev => match ev with
                      | DownloadButton _ data file_name => [(file_name, data)]
                      | _ => []
                      end) t.

Definition charts (t : trace) : list Indicator :=
  flat_map (fun ev => match ev with PlotlyChart figure => [figure] | _ => [] end) t.

Definition warnings (t : trace) : nat :=
  List.length (filter (fun ev => match ev with Warning _ => true | _ => false end) t).

(** A numeral with a sign, an integer part and exactly two fractional digits. *)
Definition two_decimal_numeral (s : string) : Prop :=
  exists (negative : bool) (whole d1 d2 : Z),
    0 <= whole /\ 0 <= d1 <= 9 /\ 0 <= d2 <= 9
    /\ s = ((if negative then "-" else "") ++ decimal whole ++ "."
            ++ String (digit_char d1) (String (digit_char d2) EmptyString))%string.


(** A session in which the lowest systolic and the highest diastolic pressure
    of the form are entered. *)
Definition low_pulse_session : Env :=
  {| artifact := Ok age_model;
     requests_get := healthy_network;
     lottie_component := object_component;
     theme_base := Some "dark";
     out_of_range := Reject;
     age_entries := [];
     systolic_entries := [70%float];
     cholesterol_entries := [];
     diastolic_entries := [120%float];
     submitted := true |}.

(** ** The value of a binary64 number *)

(** The integer [x * 2^1074] of a finite [x]. *)
Definition scaled (x : spec_float) : Z :=
  match x with
  | S754_finite s m e => cond_Zopp s (Zpos m * 2 ^ (e + 1074))
  | _ => 0
  end.

(** The bounds of the form and of the pulse pressure, as [Prim2SF] yields
    them: 70, 130, 60, 120 and -50. *)
Definition c70 : spec_float := S754_finite false 4925812092436480 (-46).
Definition c130 : spec_float := S754_finite false 4573968371548160 (-45).
Definition c60 : spec_float := S754_finite false 8444249301319680 (-47).
Definition c120 : spec_float := S754_finite false 8444249301319680 (-46).
Definition cm50 : spec_float := S754_finite true 7036874417766400 (-47).


(** ** Sessions that differ in one respect *)

Definition with_network (env : Env) (network : string -> result Response) : Env :=
  {| artifact := artifact env;
     requests_get := network;
     lottie_component := lottie_component env;
     theme_base := theme_base env;
     out_of_range := out_of_range env;
     age_entries := age_entries env;
     systolic_entries := systolic_entries env;
     cholesterol_entries := cholesterol_entries env;
     diastolic_entries := diastolic_entries env;
     submitted := submitted env |}.

Definition with_theme (env : Env) (theme : option string) : Env :=
  {| artifact := artifact env;
     requests_get := requests_get env;
     lottie_component := lottie_component env;
     theme_base := theme;
     out_of_range := out_of_range env;
     age_entries := age_entries env;
     systolic_entries := systolic_entries env;
     cholesterol_entries := cholesterol_entries env;
     diastolic_entries := diastolic_entries env;
     submitted := submitted env |}.

(** The session in which one more entry is typed into one widget of the
    form, after the entries already made. *)
Definition type_age (env : Env) (entry : Z) : Env :=
  {| artifact := artifact env;
     requests_get := requests_get env;
     lottie_component := lottie_component env;
     theme_base := theme_base env;
     out_of_range := out_of_range env;
     age_entries := age_entries env ++ [entry];
     systolic_entries := systolic_entries env;
     cholesterol_entries := cholesterol_entries env;
     diastolic_entries := diastolic_entries env;
     submitted := submitted env |}.

Definition type_systolic (env : Env) (entry : float) : Env :=
  {| artifact := artifact env;
     requests_get := requests_get env;
     lottie_component := lottie_component env;
     theme_base := theme_base env;
     out_of_range := out_of_range env;
     age_entries := age_entries env;
     systolic_entries := systolic_entries env ++ [entry];
     cholesterol_entries := cholesterol_entries env;
     diastolic_entries := diastolic_entries env;
     submitted := submitted env |}.

Definition type_cholesterol (env : Env) (entry : float) : Env :=
  {| artifact := artifact env;
     requests_get := requests_get env;
     lottie_component := lottie_component env;
     theme_base := theme_base env;
     out_of_range := out_of_range env;
     age_entries := age_entries env;
     systolic_entries := systolic_entries env;
     cholesterol_entries := cholesterol_entries env ++ [entry];
     diastolic_entries := diastolic_entries env;
     submitted := submitted env |}.

Definition type_diastolic (env : Env) (entry : float) : Env :=
  {| artifact := artifact env;
     requests_get := requests_get env;
     lottie_component := lottie_component env;
     theme_base := theme_base env;
     out_of_range := out_of_range env;
     age_entries := age_entries env;
     systolic_entries := systolic_entries env;
     cholesterol_entries := cholesterol_entries env;
     diastolic_entries := diastolic_entries env ++ [entry];
     submitted := submitted env |}.

(** The session before anything is typed into the form. *)
Definition untouched (env : Env) : Env :=
  {| artifact := artifact env;
     requests_get := requests_get env;
     lottie_component := lottie_component env;
     theme_base := theme_base env;
     out_of_range := out_of_range env;
     age_entries := [];
     systolic_entries := [];
     cholesterol_entries := [];
     diastolic_entries := [];
     submitted := submitted env |}.

(** What the script does with a fetched document [a]: nothing that can fail
    when it is falsy, and the call of the component otherwise. *)
Definition drawing (env : Env) (a : json) : result unit :=
  if truthy a then lottie_component env a 250 else Ok tt.

(** ** Further observations on a trace *)

(** The elements of the two animation slots. *)
Definition is_slot (ev : event) : bool :=
  match ev with
  | Lottie _ _ | Warning _ => true
  | _ => false
  end.

Definition outside_slots (t : trace) : trace := filter (fun ev => negb (is_slot ev)) t.

Definition is_markdown (ev : event) : bool :=
  match ev with
  | Markdown _ => true
  | _ => false
  end.

Definition outside_markdown (t : trace) : trace :=
  filter (fun ev => negb (is_markdown ev)) t.

(** The elements that exist only after a submission. *)
Definition is_result (ev : event) : bool :=
  match ev with
  | ErrorBox _ | SuccessBox _ | Expander _ _ | PlotlyChart _
  | DownloadButton _ _ _ | ModelCall _ _ => true
  | _ => false
  end.

Definition results (t : trace) : trace := filter is_result t.

Definition shows_caption (t : trace) : bool :=
  existsb (fun ev => match ev with Caption _ => true | _ => false end) t.

(** What [load_lottie_url] returns for an answered request whose body, if
    the status is 200, is JSON. *)
Definition decoded (r : Response) : json :=
  if negb (status_code r =? 200) then JNull
  else match json_body r with
       | Some doc => doc
       | None => JNull
       end.

(** What a slot shows for the value [load_lottie_url] returned. *)
Definition slot (a : json) : event :=
  if truthy a then Lottie a 250 else Warning "⚠️ Animation couldn't load.".

(** The second part of the script: lines 136-284, after the animations. *)
Definition after_welcome (env : Env) (model : Model) : App unit :=
  let req := input_form env in
  (if submitted env then on_submit env model req else ret tt) ;;;
  st_markdown "---" ;;;
  st_caption "👨‍⚕️ Created with ❤️ by Sathwik Patel using Streamlit".

Definition is_call (ev : event) : bool :=
  match ev with
  | ModelCall _ _ => true
  | _ => false
  end.

(** ** Further sample networks and classifiers *)

(** The first animation is missing, the second is served. *)
Definition mixed_network (url : string) : result Response :=
  if String.eqb url "https://assets1.lottiefiles.com/packages/lf20_3vbOcw.json"
  then Ok {| status_code := 404; json_body := None |}
  else Ok {| status_code := 200; json_body := Some lottie_document |}.

(** The first animation is served, the connection for the second fails. *)
Definition second_fails_network (url : string) : result Response :=
  if String.eqb url "https://assets1.lottiefiles.com/packages/lf20_3vbOcw.json"
  then Ok {| status_code := 200; json_body := Some lottie_document |}
  else Raise ConnectionError.

(** Both requests are answered 200 with a JSON document that is a list. *)
Definition list_network (url : string) : result Response :=
  Ok {| status_code := 200; json_body := Some (JArray [JInt 1; JInt 2]) |}.

(** The first animation is served, the second answer is a list. *)
Definition second_list_network (url : string) : result Response :=
  if String.eqb url "https://assets1.lottiefiles.com/packages/lf20_3vbOcw.json"
  then Ok {| status_code := 200; json_body := Some lottie_document |}
  else Ok {| status_code := 200; json_body := Some (JArray [JInt 1; JInt 2]) |}.

(** A classifier whose label is -1. *)
Definition wrapping_model : Model :=
  {| predict := fun _ => Ok [-1];
     predict_proba := fun _ => Ok [[0.75; 0.25]%float] |}.

(** A classifier whose [predict] raises. *)
Definition raising_model : Model :=
  {| predict := fun _ => Raise ValueError;
     predict_proba := fun _ => Ok [[0.75; 0.25]%float] |}.

(** ** Shifting a mantissa *)

(** After [k] steps the mantissa is the quotient by [2^k], and the two
    sticky bits are clear when the division is exact. *)
Definition shifted (M : Z) (k : Z) (mrs : shr_record) : Prop :=
  shr_m mrs = M / 2 ^ k
  /\ (M mod 2 ^ k = 0 -> shr_r mrs = false /\ shr_s mrs = false).

(** The numbers 0, 1 and 100, as [Prim2SF] yields them. *)
Definition c0 : spec_float := S754_zero false.
Definition c1 : spec_float := S754_finite false 4503599627370496 (-52).
Definition c100 : spec_float := S754_finite false 7036874417766400 (-46).

(** The second half of [binary_round_aux]: what becomes of the rounded
    mantissa [q] at exponent [e]. *)
Definition round_tail (sx : bool) (q e : Z) : spec_float :=
  let '(mrs'', e'') := shr_fexp prec emax q e loc_Exact in
  match shr_m mrs'' with
  | Z0 => S754_zero sx
  | Zpos m => if Z.leb e'' (Z.sub emax prec) then S754_finite sx m e'' else S754_infinity sx
  | _ => S754_nan
  end.

(** The numbers 2, 3, 63 and 124, as [Prim2SF] yields them. *)
Definition c2 : spec_float := S754_finite false 4503599627370496 (-51).
Definition c3 : spec_float := S754_finite false 6755399441055744 (-51).
Definition c63 : spec_float := S754_finite false 8866461766385664 (-47).
Definition c124 : spec_float := S754_finite false 8725724278030336 (-46).
(** * Properties *)

(** ** Formatting *)

Example format_2f_samples :
  map format_2f [40; 0.125; 0.375; 0.625; -0.0009765625; 1e22; 99.9951171875; -50]%float
  = ["40.00"; "0.12"; "0.38"; "0.62"; "-0.00"; "10000000000000000000000.00"; "100.00"; "-50.00"].
Proof. vm_compute. reflexivity. Qed.

(** ** The monad *)

Lemma page_bind {A B : Type} (m : App A) (k : A -> App B) :
  page (bind m k) =
  page m ++ match outcome m with Ok a => page (k a) | Raise _ => [] end.
Proof.
  destruct m as [t [a | e]]; unfold bind, page, outcome; simpl.
  - destruct (k a); reflexivity.
  - now rewrite app_nil_r.
Qed.

Lemma outcome_bind {A B : Type} (m : App A) (k : A -> App B) :
  outcome (bind m k) =
  match outcome m with Ok a => outcome (k a) | Raise e => Raise e end.
Proof.
  destruct m as [t [a | e]]; unfold bind, outcome; simpl; [destruct (k a) |]; reflexivity.
Qed.


Lemma In_firstn {A : Type} (x : A) (n : nat) (l : list A) :
  In x (firstn n l) -> In x l.
Proof.
  revert l. induction n as [| n IH]; intros [| y l] H; cbn in H; try contradiction.
  destruct H as [-> | H]; [left; reflexivity | right; auto].
Qed.

Lemma model_calls_app (t1 t2 : trace) :
  model_calls (t1 ++ t2) = model_calls t1 ++ model_calls t2.
Proof.
  induction t1 as [| ev t1 IH]; simpl; [reflexivity |].
  destruct ev; simpl; rewrite ?IH; reflexivity.
Qed.

Lemma load_lottie_url_calls (env : Env) (url : string) :
  page (load_lottie_url env url) = [].
Proof.
  unfold load_lottie_url. rewrite page_bind. simpl.
  destruct (requests_get env url) as [r | e]; [| reflexivity].
  destruct (negb (status_code r =? 200)); [reflexivity |].
  destruct (json_body r); reflexivity.
Qed.

Lemma for_each_load_page (env : Env) (us : list string) :
  page (for_each (load_lottie_url env) us) = [].
Proof.
  induction us as [| u us IH]; [reflexivity |].
  cbn [for_each]. rewrite page_bind, load_lottie_url_calls. simpl.
  destruct (outcome (load_lottie_url env u)); [| reflexivity].
  rewrite page_bind, IH. simpl.
  destruct (outcome (for_each (load_lottie_url env) us)); reflexivity.
Qed.

Lemma st_lottie_cases (env : Env) (a : json) (height : Z) :
  st_lottie env a height =
  match lottie_component env a height with
  | Ok _ => ([Lottie a height], Ok tt)
  | Raise e => ([], Raise e)
  end.
Proof.
  unfold st_lottie, bind, lift, emit.
  destruct (lottie_component env a height); reflexivity.
Qed.

Lemma animation_slot_calls (env : Env) (animations : list json) (i : Z) :
  model_calls (page (animation_slot env animations i)) = [].
Proof.
  unfold animation_slot. rewrite page_bind. simpl.
  destruct (py_index animations i) as [a | e]; [| reflexivity].
  destruct (truthy a); [| reflexivity].
  rewrite st_lottie_cases. destruct (lottie_component env a 250); reflexivity.
Qed.

Lemma welcome_calls (env : Env) : model_calls (page (welcome env)) = [].
Proof.
  unfold welcome. rewrite page_bind. cbn -[for_each animation_slot].
  rewrite page_bind, for_each_load_page. cbn -[for_each animation_slot].
  destruct (outcome (for_each (load_lottie_url env) urls)) as [animations | e]; [| reflexivity].
  rewrite page_bind, model_calls_app, animation_slot_calls. cbn -[animation_slot].
  destruct (outcome (animation_slot env animations 0)); [| reflexivity].
  apply animation_slot_calls.
Qed.

Lemma render_calls (env : Env) (p : Z) (c pp mp : float) :
  model_calls (page (render env p c pp mp)) = [].
Proof.
  unfold render, result_message. destruct (p =? 1); reflexivity.
Qed.

Lemma render_completes (env : Env) (p : Z) (c pp mp : float) :
  outcome (render env p c pp mp) = Ok tt.
Proof.
  unfold render, result_message. destruct (p =? 1); reflexivity.
Qed.

(** ** The prediction invoker, case by case *)


Lemma invoke_cases (model : Model) (req : PredictionRequest) :
  invoke model req =
  let frame := input_df req in
  match predict model frame with
  | Raise e => ([ModelCall "predict" frame], Raise e)
  | Ok labels =>
    match py_index labels 0 with
    | Raise e => ([ModelCall "predict" frame], Raise e)
    | Ok prediction =>
      let t := [ModelCall "predict" frame; ModelCall "predict_proba" frame] in
      match predict_proba model frame with
      | Raise e => (t, Raise e)
      | Ok probabilities =>
        match py_index probabilities 0 with
        | Raise e => (t, Raise e)
        | Ok pred_proba =>
          match py_index pred_proba prediction with
          | Raise e => (t, Raise e)
          | Ok confidence => (t, Ok (prediction, confidence))
          end
        end
      end
    end
  end.
Proof.
  unfold invoke, model_predict, model_predict_proba, bind, emit, lift, ret. cbv zeta.
  destruct (predict model (input_df req)) as [labels | e]; [| reflexivity].
  destruct (py_index labels 0) as [prediction | e]; [| reflexivity].
  destruct (predict_proba model (input_df req)) as [probabilities | e]; [| reflexivity].
  destruct (py_index probabilities 0) as [pred_proba | e]; [| reflexivity].
  destruct (py_index pred_proba prediction) as [confidence | e]; reflexivity.
Qed.

Lemma invoke_calls (model : Model) (req : PredictionRequest) :
  exists n : nat,
    model_calls (page (invoke model req)) = firstn n (both_calls (input_df req))
    /\ (completes (invoke model req) = true -> n = 2%nat).
Proof.
  rewrite invoke_cases. cbv zeta. unfold completes.
  destruct (predict model (input_df req)) as [labels | e];
    [| exists 1%nat; split; [reflexivity | discriminate]].
  destruct (py_index labels 0) as [prediction | e];
    [| exists 1%nat; split; [reflexivity | discriminate]].
  exists 2%nat.
  destruct (predict_proba model (input_df req)) as [probabilities | e]; [| now split].
  destruct (py_index probabilities 0) as [pred_proba | e]; [| now split].
  destruct (py_index pred_proba prediction) as [confidence | e]; now split.
Qed.

Lemma on_submit_calls (env : Env) (model : Model) (req : PredictionRequest) :
  exists n : nat,
    model_calls (page (on_submit env model req)) = firstn n (both_calls (input_df req))
    /\ (completes (on_submit env model req) = true -> n = 2%nat).
Proof.
  destruct (invoke_calls model req) as (n & Hcalls & Hdone).
  exists n. unfold on_submit, completes in *.
  rewrite page_bind, outcome_bind, model_calls_app, Hcalls.
  destruct (outcome (invoke model req)) as [[prediction confidence] | e].
  - cbv beta iota. unfold derived_metrics.
    rewrite render_calls, app_nil_r. auto.
  - rewrite app_nil_r. split; [reflexivity | discriminate].
Qed.

Lemma app_calls (env : Env) :
  exists n : nat,
    model_calls (page (app env)) = firstn n (both_calls (input_df (input_form env)))
    /\ (submitted env = true -> completes (app env) = true -> n = 2%nat)
    /\ (submitted env = false -> n = 0%nat).
Proof.
  unfold app, completes, load_model.
  rewrite page_bind, outcome_bind. cbn [lift page outcome fst snd List.app].
  destruct (artifact env) as [model | e];
    [| exists 0%nat; split; [reflexivity | split; [discriminate | reflexivity]]].
  rewrite !page_bind, !outcome_bind. cbn [st_title st_markdown emit page outcome fst snd].
  destruct (outcome (welcome env)) eqn:Hw.
  2:{ exists 0%nat. cbn [List.app model_calls]. rewrite model_calls_app, welcome_calls.
      split; [reflexivity | split; [discriminate | reflexivity]]. }
  destruct (submitted env) eqn:Hs.
  - destruct (on_submit_calls env model (input_form env)) as (n & Hcalls & Hdone).
    exists n. unfold completes in Hdone.
    split; [| split; [| discriminate]].
    + cbn [List.app model_calls]. rewrite !model_calls_app, welcome_calls, Hcalls.
      destruct (outcome (on_submit env model (input_form env)));
        cbn; now rewrite app_nil_r.
    + intros _.
      destruct (outcome (on_submit env model (input_form env))); [auto | discriminate].
  - exists 0%nat. split; [| split; [discriminate | reflexivity]].
    cbn [List.app model_calls]. rewrite !model_calls_app, welcome_calls. reflexivity.
Qed.

(** ** The format [.2f] *)

Lemma round_half_even_nearest (num den : Z) :
  0 < den -> Z.abs (2 * (round_half_even num den * den - num)) <= den.
Proof.
  intros Hden. unfold round_half_even.
  pose proof (Z.div_mod num den ltac:(lia)) as Hdm.
  pose proof (Z.mod_pos_bound num den Hden) as Hr.
  destruct (Z.compare_spec (2 * (num mod den)) den) as [Heq | Hlt | Hgt];
    [destruct (Z.even (num / den)) |..]; nia.
Qed.

Lemma round_half_even_nonneg (num den : Z) :
  0 <= num -> 0 < den -> 0 <= round_half_even num den.
Proof.
  intros Hnum Hden. unfold round_half_even.
  pose proof (Z.div_pos num den Hnum Hden).
  destruct (2 * (num mod den) ?= den); [destruct (Z.even (num / den)) |..]; lia.
Qed.

Lemma hundredths_nonneg (m : positive) (e : Z) : 0 <= hundredths m e.
Proof.
  unfold hundredths. destruct (0 <=? e) eqn:He.
  - apply Z.leb_le in He. pose proof (Z.pow_nonneg 2 e ltac:(lia)). nia.
  - apply Z.leb_gt in He. apply round_half_even_nonneg; [lia |].
    apply Z.pow_pos_nonneg; lia.
Qed.

Lemma fixed2_two_decimals (negative : bool) (h : Z) :
  0 <= h -> two_decimal_numeral (fixed2 negative h).
Proof.
  intros Hh. exists negative, (h / 100), (h mod 100 / 10), ((h mod 100) mod 10).
  pose proof (Z.mod_pos_bound h 100 ltac:(lia)) as Hm.
  pose proof (Z.mod_pos_bound (h mod 100) 10 ltac:(lia)) as Hm'.
  repeat split; try lia.
  - apply Z.div_pos; lia.
  - apply Z.div_pos; lia.
  - apply Z.lt_succ_r. apply Z.div_lt_upper_bound; lia.
Qed.

Lemma format_2f_two_decimals (x : float) :
  is_finite x = true -> two_decimal_numeral (format_2f x).
Proof.
  unfold is_finite, is_real, format_2f, format_2f_spec.
  destruct (Prim2SF x) as [s | s | | s m e]; try discriminate; intros _.
  - apply fixed2_two_decimals. lia.
  - apply fixed2_two_decimals, hundredths_nonneg.
Qed.

(** ** Binary64 arithmetic on the domains of the form

    The primitive operations are specified by [FloatAxioms] through their
    images under [Prim2SF].  Every finite binary64 number is an integer
    multiple of [2^-1074]; [scaled] is that integer, and comparing valid
    numbers is comparing their [scaled] values. *)

Module Binary64.

Ltac hide_pow :=
  repeat match goal with
         | |- context [2 ^ ?e] =>
             let p := fresh "p" in set (p := 2 ^ e) in *; clearbody p
         | H : context [2 ^ ?e] |- _ =>
             let p := fresh "p" in set (p := 2 ^ e) in *; clearbody p
         end.

Ltac eval_exponents :=
  repeat match goal with
         | |- context [2 ^ ?e] =>
             lazymatch e with
             | Zpos _ => fail | Zneg _ => fail | Z0 => fail
             | _ => let v := eval compute in e in change (2 ^ e) with (2 ^ v)
             end
         | H : context [2 ^ ?e] |- _ =>
             lazymatch e with
             | Zpos _ => fail | Zneg _ => fail | Z0 => fail
             | _ => let v := eval compute in e in change (2 ^ e) with (2 ^ v) in H
             end
         end.

Lemma digits2_pos_bounds (m : positive) :
  2 ^ (Zpos (digits2_pos m) - 1) <= Zpos m < 2 ^ Zpos (digits2_pos m).
Proof.
  induction m as [m IH | m IH |]; cbn [digits2_pos].
  - rewrite Pos2Z.inj_succ, (Pos2Z.inj_xI m).
    replace (Z.succ (Zpos (digits2_pos m)) - 1) with (Z.succ (Zpos (digits2_pos m) - 1)) by lia.
    rewrite !Z.pow_succ_r by lia. hide_pow. lia.
  - rewrite Pos2Z.inj_succ, (Pos2Z.inj_xO m).
    replace (Z.succ (Zpos (digits2_pos m)) - 1) with (Z.succ (Zpos (digits2_pos m) - 1)) by lia.
    rewrite !Z.pow_succ_r by lia. hide_pow. lia.
  - split; [apply Z.leb_le | apply Z.ltb_lt]; reflexivity.
Qed.

Lemma digits2_pos_le (m : positive) (d : Z) :
  0 <= d -> Zpos m < 2 ^ d -> Zpos (digits2_pos m) <= d.
Proof.
  intros Hd Hm. pose proof (digits2_pos_bounds m) as [Hlo _].
  destruct (Z.le_gt_cases (Zpos (digits2_pos m)) d) as [Hle | Hgt]; [exact Hle |].
  pose proof (Z.pow_le_mono_r 2 d (Zpos (digits2_pos m) - 1) ltac:(lia) ltac:(lia)).
  hide_pow. lia.
Qed.

Lemma digits2_pos_ge (m : positive) (d : Z) :
  2 ^ (d - 1) <= Zpos m -> d <= Zpos (digits2_pos m).
Proof.
  intros Hm. pose proof (digits2_pos_bounds m) as [_ Hhi].
  destruct (Z.le_gt_cases d (Zpos (digits2_pos m))) as [Hle | Hgt]; [exact Hle |].
  pose proof (Z.pow_le_mono_r 2 (Zpos (digits2_pos m)) (d - 1) ltac:(lia) ltac:(lia)).
  hide_pow. lia.
Qed.

Lemma bounded_facts (m : positive) (e : Z) :
  bounded prec emax m e = true ->
  -1074 <= e <= 971 /\ Zpos m < 2 ^ 53 /\ (-1074 < e -> 2 ^ 52 <= Zpos m).
Proof.
  unfold bounded, canonical_mantissa, fexp, SpecFloat.emin, prec, emax.
  intros H. apply andb_true_iff in H. destruct H as [Hc He].
  apply Z.eqb_eq in Hc. apply Z.leb_le in He.
  pose proof (digits2_pos_bounds m) as [Hlo Hhi].
  assert (Hd : Zpos (digits2_pos m) <= 53) by lia.
  split; [lia |]. split.
  - pose proof (Z.pow_le_mono_r 2 (Zpos (digits2_pos m)) 53 ltac:(lia) Hd). lia.
  - intros Hn. assert (Zpos (digits2_pos m) = 53) as Hd' by lia.
    rewrite Hd' in Hlo. exact Hlo.
Qed.

Lemma scale_lt (m1 m2 P Q : Z) :
  0 < P -> 0 < Q -> 0 < m1 < 2 ^ 53 -> 2 ^ 52 <= m2 -> m1 * P < m2 * (Q * 2 * P).
Proof.
  intros HP HQ Hm1 Hm2. change (2 ^ 53) with (2 * 2 ^ 52) in Hm1.
  remember (2 ^ 52) as c eqn:Hc. clear Hc.
  assert (H1 : m1 * P < 2 * c * P) by (apply Z.mul_lt_mono_pos_r; lia).
  assert (H2 : 2 * c * P <= 2 * m2 * P) by (apply Z.mul_le_mono_nonneg_r; lia).
  assert (H3 : 2 * m2 * P <= Q * (2 * m2 * P)) by nia.
  lia.
Qed.

Lemma canonical_compare (m1 m2 : positive) (e1 e2 : Z) :
  bounded prec emax m1 e1 = true -> bounded prec emax m2 e2 = true ->
  (Zpos m1 * 2 ^ (e1 + 1074) ?= Zpos m2 * 2 ^ (e2 + 1074))
  = match e1 ?= e2 with
    | Lt => Lt
    | Gt => Gt
    | Eq => Pos.compare_cont Eq m1 m2
    end.
Proof.
  intros H1 H2.
  destruct (bounded_facts _ _ H1) as (He1 & Hm1 & Hn1).
  destruct (bounded_facts _ _ H2) as (He2 & Hm2 & Hn2).
  destruct (Z.compare_spec e1 e2) as [Heq | Hlt | Hgt].
  - subst e2. change (Pos.compare_cont Eq m1 m2) with (Zpos m1 ?= Zpos m2).
    pose proof (Z.pow_pos_nonneg 2 (e1 + 1074) ltac:(lia) ltac:(lia)) as Hp.
    destruct (Z.compare_spec (Zpos m1) (Zpos m2)) as [E | L | G].
    + rewrite E. apply Z.compare_refl.
    + apply Z.compare_lt_iff. apply Z.mul_lt_mono_pos_r; assumption.
    + apply Z.compare_gt_iff. apply Z.mul_lt_mono_pos_r; assumption.
  - apply Z.compare_lt_iff.
    replace (e2 + 1074) with ((e2 - e1 - 1) + 1 + (e1 + 1074)) by lia.
    rewrite (Z.pow_add_r 2 (e2 - e1 - 1 + 1) (e1 + 1074)), (Z.pow_add_r 2 (e2 - e1 - 1) 1) by lia.
    apply scale_lt; try apply Z.pow_pos_nonneg; lia.
  - apply Z.compare_gt_iff.
    replace (e1 + 1074) with ((e1 - e2 - 1) + 1 + (e2 + 1074)) by lia.
    rewrite (Z.pow_add_r 2 (e1 - e2 - 1 + 1) (e2 + 1074)), (Z.pow_add_r 2 (e1 - e2 - 1) 1) by lia.
    apply scale_lt; try apply Z.pow_pos_nonneg; lia.
Qed.

Lemma SFcompare_scaled (x y : spec_float) :
  valid_binary x = true -> valid_binary y = true ->
  is_real x = true -> is_real y = true ->
  SFcompare x y = Some (scaled x ?= scaled y).
Proof.
  intros Vx Vy Rx Ry.
  destruct x as [sx | sx | | sx mx ex]; try discriminate Rx;
  destruct y as [sy | sy | | sy my ey]; try discriminate Ry; cbn [SFcompare scaled].
  - reflexivity.
  - cbn in Vy. destruct (bounded_facts _ _ Vy) as (He & _ & _).
    pose proof (Z.pow_pos_nonneg 2 (ey + 1074) ltac:(lia) ltac:(lia)) as Hp.
    f_equal. symmetry. destruct sy; cbn [cond_Zopp].
    + apply Z.compare_gt_iff. nia.
    + apply Z.compare_lt_iff. nia.
  - cbn in Vx. destruct (bounded_facts _ _ Vx) as (He & _ & _).
    pose proof (Z.pow_pos_nonneg 2 (ex + 1074) ltac:(lia) ltac:(lia)) as Hp.
    f_equal. symmetry. destruct sx; cbn [cond_Zopp].
    + apply Z.compare_lt_iff. nia.
    + apply Z.compare_gt_iff. nia.
  - cbn in Vx, Vy.
    destruct (bounded_facts _ _ Vx) as (Hex & _ & _).
    destruct (bounded_facts _ _ Vy) as (Hey & _ & _).
    pose proof (Z.pow_pos_nonneg 2 (ex + 1074) ltac:(lia) ltac:(lia)) as Hpx.
    pose proof (Z.pow_pos_nonneg 2 (ey + 1074) ltac:(lia) ltac:(lia)) as Hpy.
    f_equal. destruct sx, sy; cbn [cond_Zopp].
    + rewrite Z.compare_opp, (canonical_compare my mx ey ex Vy Vx).
      rewrite (Z.compare_antisym ex ey), Pos.compare_cont_antisym.
      destruct (ex ?= ey); reflexivity.
    + symmetry. apply Z.compare_lt_iff. nia.
    + symmetry. apply Z.compare_gt_iff. nia.
    + symmetry. apply canonical_compare; assumption.
Qed.

Lemma fexp_normal (d e : Z) :
  -1074 <= d + e - 53 -> fexp prec emax (d + e) = d + e - 53.
Proof. unfold fexp, SpecFloat.emin, prec, emax. lia. Qed.

Lemma shr_fexp_53 (mz : positive) (ez : Z) :
  Zpos (digits2_pos mz) = 53 -> -1074 <= ez ->
  shr_fexp prec emax (Zpos mz) ez loc_Exact
  = ({| shr_m := Zpos mz; shr_r := false; shr_s := false |}, ez).
Proof.
  intros Hd He. unfold shr_fexp. cbn [Zdigits2 shr_record_of_loc].
  rewrite Hd, fexp_normal by lia.
  replace (53 + ez - 53 - ez) with 0 by lia. reflexivity.
Qed.

Lemma bounded_53 (mz : positive) (ez : Z) :
  Zpos (digits2_pos mz) = 53 -> -1074 <= ez <= 971 -> bounded prec emax mz ez = true.
Proof.
  intros Hd He. unfold bounded, canonical_mantissa.
  rewrite Hd, fexp_normal by lia.
  apply andb_true_iff. split; [apply Z.eqb_eq | apply Z.leb_le]; unfold emax, prec; lia.
Qed.

Lemma binary_round_aux_53 (s : bool) (mz : positive) (ez : Z) :
  Zpos (digits2_pos mz) = 53 -> -1074 <= ez <= 971 ->
  binary_round_aux prec emax s (Zpos mz) ez loc_Exact = S754_finite s mz ez.
Proof.
  intros Hd He. unfold binary_round_aux.
  rewrite shr_fexp_53 by lia. cbn [shr_m loc_of_shr_record round_nearest_even].
  rewrite shr_fexp_53 by lia. cbn [shr_m].
  replace (ez <=? emax - prec) with true; [reflexivity |].
  symmetry. apply Z.leb_le. unfold emax, prec. lia.
Qed.

Lemma iter_xO_digits (p k : positive) :
  digits2_pos (Pos.iter xO p k) = (digits2_pos p + k)%positive.
Proof.
  induction k as [| k IH] using Pos.peano_ind.
  - cbn. now rewrite Pos.add_1_r.
  - rewrite Pos.iter_succ. cbn [digits2_pos]. rewrite IH. lia.
Qed.

Lemma iter_xO_value (p k : positive) :
  Zpos (Pos.iter xO p k) = Zpos p * 2 ^ Zpos k.
Proof.
  induction k as [| k IH] using Pos.peano_ind.
  - cbn. lia.
  - rewrite Pos.iter_succ, Pos2Z.inj_xO, IH, Pos2Z.inj_succ, Z.pow_succ_r by lia. ring.
Qed.

(** Rounding a mantissa of at most 53 bits is exact. *)
Lemma binary_round_exact (s : bool) (p : positive) (e : Z) :
  Zpos (digits2_pos p) <= 53 ->
  -1074 <= e + Zpos (digits2_pos p) - 53 ->
  e <= 971 ->
  exists (m' : positive) (e' : Z),
    binary_round prec emax s p e = S754_finite s m' e'
    /\ bounded prec emax m' e' = true
    /\ Zpos m' * 2 ^ (e' + 1074) = Zpos p * 2 ^ (e + 1074).
Proof.
  intros Hd Hn He. unfold binary_round.
  rewrite fexp_normal by lia. unfold shl_align.
  replace (Zpos (digits2_pos p) + e - 53 - e) with (Zpos (digits2_pos p) - 53) by lia.
  destruct (Zpos (digits2_pos p) - 53) as [| k | k] eqn:Hk; [| lia |].
  - exists p, e. rewrite binary_round_aux_53 by lia.
    split; [reflexivity |]. split; [apply bounded_53; lia | reflexivity].
  - assert (Hdk : Zpos (digits2_pos (Pos.iter xO p k)) = 53)
      by (rewrite iter_xO_digits; lia).
    exists (Pos.iter xO p k), (Zpos (digits2_pos p) + e - 53).
    rewrite binary_round_aux_53 by lia.
    split; [reflexivity |]. split; [apply bounded_53; lia |].
    rewrite iter_xO_value.
    replace (e + 1074) with (Zpos k + (Zpos (digits2_pos p) + e - 53 + 1074)) by lia.
    rewrite (Z.pow_add_r 2 (Zpos k)) by lia. ring.
Qed.

(** Rounding a mantissa of 54 bits drops one bit, to nearest even, and stays
    below any bound on the halved mantissa. *)
Lemma binary_round_54 (s : bool) (p : positive) (e B : Z) :
  Zpos (digits2_pos p) = 54 ->
  -1075 <= e <= 970 ->
  Zpos p <= 2 * B -> B < 2 ^ 53 ->
  exists m' : positive,
    binary_round prec emax s p e = S754_finite s m' (e + 1)
    /\ bounded prec emax m' (e + 1) = true
    /\ Zpos m' <= B.
Proof.
  intros Hd He Hp HB. unfold binary_round.
  rewrite Hd, fexp_normal by lia. unfold shl_align.
  replace (54 + e - 53 - e) with 1 by lia. cbv iota.
  unfold binary_round_aux, shr_fexp at 1. cbn [Zdigits2 shr_record_of_loc].
  rewrite Hd, fexp_normal by lia.
  replace (54 + e - 53 - e) with 1 by lia.
  cbn [shr iter_pos].
  destruct p as [q | q |]; [| | discriminate Hd]; cbn [digits2_pos] in Hd;
    rewrite Pos2Z.inj_succ in Hd;
    assert (Hq : Zpos (digits2_pos q) = 53) by lia;
    pose proof (digits2_pos_bounds q) as Hqb; rewrite Hq in Hqb;
    change (2 ^ (53 - 1)) with (2 ^ 52) in Hqb;
    cbn [shr_1 orb shr_m loc_of_shr_record round_nearest_even].
  - rewrite Pos2Z.inj_xI in Hp.
    assert (Hsucc : Zpos (digits2_pos (q + 1)) = 53).
    { apply Z.le_antisymm.
      - apply digits2_pos_le; lia.
      - apply digits2_pos_ge. change (2 ^ (53 - 1)) with (2 ^ 52). lia. }
    destruct (Z.even (Zpos q)).
    + exists q. rewrite shr_fexp_53 by lia. cbn [shr_m].
      replace (e + 1 <=? emax - prec) with true
        by (symmetry; apply Z.leb_le; unfold emax, prec; lia).
      split; [reflexivity |]. split; [apply bounded_53; lia | lia].
    + exists (q + 1)%positive. change (Zpos q + 1) with (Zpos (q + 1)).
      rewrite shr_fexp_53 by lia. cbn [shr_m].
      replace (e + 1 <=? emax - prec) with true
        by (symmetry; apply Z.leb_le; unfold emax, prec; lia).
      split; [reflexivity |]. split; [apply bounded_53; lia | lia].
  - rewrite Pos2Z.inj_xO in Hp.
    exists q. rewrite shr_fexp_53 by lia. cbn [shr_m].
    replace (e + 1 <=? emax - prec) with true
      by (symmetry; apply Z.leb_le; unfold emax, prec; lia).
    split; [reflexivity |]. split; [apply bounded_53; lia | lia].
Qed.

Lemma SFleb_scaled (x y : spec_float) :
  valid_binary x = true -> valid_binary y = true ->
  is_real x = true -> is_real y = true ->
  SFleb x y = (scaled x <=? scaled y).
Proof.
  intros Vx Vy Rx Ry. unfold SFleb, Z.leb.
  rewrite (SFcompare_scaled x y Vx Vy Rx Ry).
  destruct (scaled x ?= scaled y); reflexivity.
Qed.

(** A number that lies between two reals is real. *)
Lemma SFleb_between_real (lo hi x : spec_float) :
  is_real lo = true -> is_real hi = true ->
  SFleb lo x = true -> SFleb x hi = true -> is_real x = true.
Proof.
  intros Hlo Hhi H1 H2.
  destruct x as [s | s | | s m e]; try reflexivity.
  - destruct lo as [sl | sl | | sl ml el], hi as [sh | sh | | sh mh eh];
      try discriminate; destruct s; discriminate.
  - destruct lo as [sl | sl | | sl ml el]; discriminate.
Qed.

Lemma exponent_lower (m : positive) (e k : Z) :
  bounded prec emax m e = true -> 0 <= k ->
  2 ^ k * 2 ^ 1074 <= Zpos m * 2 ^ (e + 1074) -> k - 52 <= e.
Proof.
  intros Hb Hk H. rewrite <- Z.pow_add_r in H by lia. destruct (bounded_facts _ _ Hb) as (He & Hm & _).
  destruct (Z.le_gt_cases (k - 52) e) as [Hle | Hgt]; [exact Hle | exfalso].
  pose proof (Z.pow_pos_nonneg 2 (e + 1074) ltac:(lia) ltac:(lia)) as Hp.
  assert (Hlt : Zpos m * 2 ^ (e + 1074) < 2 ^ 53 * 2 ^ (e + 1074))
    by (apply Z.mul_lt_mono_pos_r; assumption).
  rewrite <- Z.pow_add_r in Hlt by lia.
  pose proof (Z.pow_le_mono_r 2 (53 + (e + 1074)) (k + 1074) ltac:(lia) ltac:(lia)).
  lia.
Qed.

Lemma exponent_upper (m : positive) (e k : Z) :
  bounded prec emax m e = true -> 0 <= k ->
  Zpos m * 2 ^ (e + 1074) < 2 ^ k * 2 ^ 1074 -> e < k - 52.
Proof.
  intros Hb Hk H. rewrite <- Z.pow_add_r in H by lia. destruct (bounded_facts _ _ Hb) as (He & _ & Hm).
  destruct (Z.lt_ge_cases e (k - 52)) as [Hlt | Hge]; [exact Hlt | exfalso].
  specialize (Hm ltac:(lia)).
  pose proof (Z.pow_pos_nonneg 2 (e + 1074) ltac:(lia) ltac:(lia)) as Hp.
  assert (Hle : 2 ^ 52 * 2 ^ (e + 1074) <= Zpos m * 2 ^ (e + 1074))
    by (apply Z.mul_le_mono_nonneg_r; lia).
  rewrite <- Z.pow_add_r in Hle by lia.
  pose proof (Z.pow_le_mono_r 2 (k + 1074) (52 + (e + 1074)) ltac:(lia) ltac:(lia)).
  lia.
Qed.

Lemma shl_align_value (m : positive) (e e' : Z) :
  e' <= e -> Zpos (fst (shl_align m e e')) = Zpos m * 2 ^ (e - e').
Proof.
  intros Hle. unfold shl_align.
  destruct (e' - e) as [| k | k] eqn:Hk; cbn [fst]; try lia.
  - replace (e - e') with 0 by lia. lia.
  - rewrite iter_xO_value. f_equal. f_equal. lia.
Qed.

(** Normalising a difference of aligned mantissas that lies in the window
    from -50 to 70. *)
Lemma binary_normalize_window (M ez : Z) :
  -47 <= ez <= -45 ->
  -50 * 2 ^ (- ez) <= M <= 70 * 2 ^ (- ez) ->
  valid_binary (binary_normalize prec emax M ez false) = true
  /\ is_real (binary_normalize prec emax M ez false) = true
  /\ -50 * 2 ^ 1074 <= scaled (binary_normalize prec emax M ez false) <= 70 * 2 ^ 1074.
Proof.
  intros Hez HM.
  assert (Hk : 2 ^ 1074 = 2 ^ (- ez) * 2 ^ (ez + 1074))
    by (rewrite <- Z.pow_add_r by lia; f_equal; lia).
  pose proof (Z.pow_pos_nonneg 2 (ez + 1074) ltac:(lia) ltac:(lia)) as HU.
  destruct M as [| p | p]; cbn [binary_normalize].
  - cbn. split; [reflexivity |]. split; [reflexivity |]. lia.
  - assert (Hd54 : Zpos (digits2_pos p) <= 54).
    { apply digits2_pos_le; [lia |].
      assert (2 ^ (- ez) <= 2 ^ 47) by (apply Z.pow_le_mono_r; lia). lia. }
    destruct (Z.le_gt_cases (Zpos (digits2_pos p)) 53) as [Hd | Hd].
    + destruct (binary_round_exact false p ez Hd) as (m' & e' & Hr & Hb & Hv); try lia.
      rewrite Hr. cbn [valid_binary is_real scaled cond_Zopp].
      split; [exact Hb |]. split; [reflexivity |].
      rewrite Hv, Hk. nia.
    + assert (Hez' : ez = -47).
      { pose proof (digits2_pos_bounds p) as [Hlo _].
        replace (Zpos (digits2_pos p)) with 54 in Hlo by lia.
        change (2 ^ (54 - 1)) with (2 ^ 53) in Hlo.
        destruct (Z.eq_dec ez (-47)) as [| Hne]; [assumption | exfalso].
        assert (2 ^ (- ez) <= 2 ^ 46) by (apply Z.pow_le_mono_r; lia). lia. }
      subst ez. change (- -47) with 47 in *.
      destruct (binary_round_54 false p (-47) (70 * 2 ^ 46)) as (m' & Hr & Hb & Hv); try lia.
      rewrite Hr. cbn [valid_binary is_real scaled cond_Zopp].
      split; [exact Hb |]. split; [reflexivity |].
      change (-47 + 1 + 1074) with 1028. lia.
  - assert (Hd : Zpos (digits2_pos p) <= 53).
    { apply digits2_pos_le; [lia |].
      assert (2 ^ (- ez) <= 2 ^ 47) by (apply Z.pow_le_mono_r; lia). lia. }
    destruct (binary_round_exact true p ez Hd) as (m' & e' & Hr & Hb & Hv); try lia.
    rewrite Hr. cbn [valid_binary is_real scaled cond_Zopp].
    split; [exact Hb |]. split; [reflexivity |].
    rewrite Hv, Hk. nia.
Qed.

Lemma scaled_constants :
  scaled c70 = 70 * 2 ^ 1074 /\ scaled c130 = 130 * 2 ^ 1074
  /\ scaled c60 = 60 * 2 ^ 1074 /\ scaled c120 = 120 * 2 ^ 1074
  /\ scaled cm50 = -50 * 2 ^ 1074.
Proof. repeat split; vm_compute; reflexivity. Qed.

Lemma finite_in_window (x : spec_float) (a b lo hi : Z) :
  valid_binary x = true -> is_real x = true ->
  0 < a -> 0 <= lo -> 0 <= hi ->
  2 ^ lo <= a -> b < 2 ^ hi ->
  a * 2 ^ 1074 <= scaled x <= b * 2 ^ 1074 ->
  exists (m : positive) (e : Z),
    x = S754_finite false m e /\ bounded prec emax m e = true
    /\ lo - 52 <= e < hi - 52.
Proof.
  intros Vx Rx Ha Hlo Hhi Hal Hbh Hx.
  pose proof (Z.pow_pos_nonneg 2 1074 ltac:(lia) ltac:(lia)) as HK.
  destruct x as [s | s | | s m e]; try discriminate Rx; cbn [scaled] in Hx.
  - exfalso. set (K := 2 ^ 1074) in *. clearbody K. nia.
  - cbn in Vx. destruct (bounded_facts _ _ Vx) as (He & _ & _).
    pose proof (Z.pow_pos_nonneg 2 (e + 1074) ltac:(lia) ltac:(lia)) as Hp.
    pose proof (exponent_lower m e lo Vx Hlo) as HL.
    pose proof (exponent_upper m e hi Vx Hhi) as HU.
    set (K := 2 ^ 1074) in *. clearbody K.
    destruct s; cbn [cond_Zopp] in Hx; [exfalso; nia |].
    exists m, e. split; [reflexivity |]. split; [exact Vx |].
    assert (H1 : 2 ^ lo * K <= a * K) by (apply Z.mul_le_mono_nonneg_r; lia).
    assert (H2 : b * K < 2 ^ hi * K) by (apply Z.mul_lt_mono_pos_r; lia).
    split; [apply HL | apply HU]; lia.
Qed.

Lemma SFsub_window (x y : spec_float) :
  valid_binary x = true -> valid_binary y = true ->
  SFleb c70 x = true -> SFleb x c130 = true ->
  SFleb c60 y = true -> SFleb y c120 = true ->
  SFleb cm50 (SF64sub x y) = true /\ SFleb (SF64sub x y) c70 = true.
Proof.
  intros Vx Vy Hx1 Hx2 Hy1 Hy2.
  assert (Rx : is_real x = true) by (apply (SFleb_between_real c70 c130); auto).
  assert (Ry : is_real y = true) by (apply (SFleb_between_real c60 c120); auto).
  destruct scaled_constants as (S70 & S130 & S60 & S120 & S50).
  rewrite SFleb_scaled in Hx1, Hx2, Hy1, Hy2 by auto.
  apply Z.leb_le in Hx1, Hx2, Hy1, Hy2.
  destruct (finite_in_window x 70 130 6 8 Vx Rx
              ltac:(lia) ltac:(lia) ltac:(lia) ltac:(lia) ltac:(lia) (conj Hx1 Hx2))
    as (mx & ex & -> & Bx & Hex).
  destruct (finite_in_window y 60 120 5 7 Vy Ry
              ltac:(lia) ltac:(lia) ltac:(lia) ltac:(lia) ltac:(lia) (conj Hy1 Hy2))
    as (my & ey & -> & By & Hey).
  cbn [scaled cond_Zopp] in Hx1, Hx2, Hy1, Hy2.
  unfold SF64sub. cbn [SFsub cond_Zopp].
  set (ez := Z.min ex ey).
  set (M := Zpos (fst (shl_align mx ex ez)) - Zpos (fst (shl_align my ey ez))).
  assert (HM : -50 * 2 ^ (- ez) <= M <= 70 * 2 ^ (- ez)).
  { subst M. rewrite !shl_align_value by (subst ez; lia).
    assert (ex = -46 \/ ex = -45) as [-> | ->] by lia;
    assert (ey = -47 \/ ey = -46) as [-> | ->] by lia;
    subst ez; rewrite S70 in Hx1; rewrite S130 in Hx2; rewrite S60 in Hy1;
    rewrite S120 in Hy2; eval_exponents; lia. }
  destruct (binary_normalize_window M ez ltac:(subst ez; lia) HM) as (Vr & Rr & Hr).
  rewrite !SFleb_scaled by auto. rewrite S70, S50.
  split; apply Z.leb_le; lia.
Qed.

Lemma sub_window (s d : float) :
  (70 <=? s)%float = true -> (s <=? 130)%float = true ->
  (60 <=? d)%float = true -> (d <=? 120)%float = true ->
  (-50 <=? s - d)%float = true /\ (s - d <=? 70)%float = true.
Proof.
  rewrite !leb_spec, sub_spec. intros H1 H2 H3 H4.
  apply SFsub_window; auto using Prim2SF_valid.
Qed.

(** *** Shifting right and rounding *)

Lemma iter_pos_invariant {A : Type} (f : A -> A) (P : Z -> A -> Prop) :
  (forall k x, 0 <= k -> P k x -> P (k + 1) (f x)) ->
  forall (n : positive) (k : Z) (x : A),
    0 <= k -> P k x -> P (k + Zpos n) (iter_pos f n x).
Proof.
  intros Hstep. induction n as [n IH | n IH |]; intros k x Hk Hx; cbn [iter_pos].
  - replace (k + Zpos n~1) with (k + 1 + Zpos n + Zpos n) by lia.
    apply IH; [lia |]. apply IH; [lia |]. apply Hstep; assumption.
  - replace (k + Zpos n~0) with (k + Zpos n + Zpos n) by lia.
    apply IH; [lia |]. apply IH; assumption.
  - apply Hstep; assumption.
Qed.


Lemma shr_1_shifted (M k : Z) (mrs : shr_record) :
  0 <= M -> 0 <= k -> shifted M k mrs -> shifted M (k + 1) (shr_1 mrs).
Proof.
  intros HM Hk [Hm Hex]. destruct mrs as [m r s]. cbn [shr_m shr_r shr_s] in *.
  pose proof (Z.pow_pos_nonneg 2 k ltac:(lia) Hk) as Hp.
  assert (Hm0 : 0 <= m) by (subst m; apply Z.div_pos; lia).
  assert (Hdiv : M / 2 ^ (k + 1) = m / 2).
  { rewrite Z.pow_add_r, Z.pow_1_r by lia. rewrite <- Z.div_div by lia. now subst m. }
  assert (Hhalf : shr_m (shr_1 {| shr_m := m; shr_r := r; shr_s := s |}) = m / 2
                  /\ (Z.even m = true ->
                      shr_r (shr_1 {| shr_m := m; shr_r := r; shr_s := s |}) = false)
                  /\ shr_s (shr_1 {| shr_m := m; shr_r := r; shr_s := s |}) = r || s).
  { destruct m as [| p | p]; [| | lia].
    - repeat split.
    - destruct p as [p | p |]; cbn [shr_1 shr_m shr_r shr_s].
      + split; [| split; [discriminate | reflexivity]].
        rewrite Pos2Z.inj_xI. apply (Z.div_unique _ 2 _ 1); lia.
      + split; [| split; reflexivity].
        rewrite Pos2Z.inj_xO. apply (Z.div_unique _ 2 _ 0); lia.
      + split; [reflexivity | split; [discriminate | reflexivity]]. }
  destruct Hhalf as (H1 & H2 & H3).
  split; [rewrite H1; symmetry; exact Hdiv |].
  intros Hmod.
  assert (Hmul : M = 2 ^ k * 2 * (M / 2 ^ (k + 1))).
  { pose proof (Z.div_mod M (2 ^ (k + 1)) ltac:(rewrite Z.pow_add_r, Z.pow_1_r by lia; lia)).
    rewrite Hmod in *. rewrite Z.pow_add_r, Z.pow_1_r in * by lia. lia. }
  assert (Hmodk : M mod 2 ^ k = 0).
  { rewrite Hmul. replace (2 ^ k * 2 * (M / 2 ^ (k + 1)))
      with ((2 * (M / 2 ^ (k + 1))) * 2 ^ k) by ring.
    apply Z.mod_mul. lia. }
  destruct (Hex Hmodk) as [-> ->].
  rewrite H3. split; [| reflexivity].
  apply H2. rewrite Hm.
  replace (M / 2 ^ k) with (2 * (M / 2 ^ (k + 1))).
  - apply Z.even_mul.
  - rewrite Hmul at 2. replace (2 ^ k * 2 * (M / 2 ^ (k + 1)))
      with ((2 * (M / 2 ^ (k + 1))) * 2 ^ k) by ring.
    rewrite Z.div_mul by lia. reflexivity.
Qed.

Lemma iter_shr_1_shifted (M : positive) (n : positive) :
  shifted (Zpos M) (Zpos n)
    (iter_pos shr_1 n {| shr_m := Zpos M; shr_r := false; shr_s := false |}).
Proof.
  change (Zpos n) with (0 + Zpos n).
  apply (iter_pos_invariant shr_1 (shifted (Zpos M))).
  - intros k x Hk Hx. apply shr_1_shifted; [lia | assumption | assumption].
  - lia.
  - split; cbn [shr_m shr_r shr_s].
    + now rewrite Z.div_1_r.
    + auto.
Qed.

Lemma round_nearest_even_bounds (m : Z) (l : location) :
  m <= round_nearest_even m l <= m + 1.
Proof.
  destruct l as [| []]; cbn [round_nearest_even]; try lia.
  destruct (Z.even m); lia.
Qed.

(** Rounding the shifted mantissa stays below every integer bound on the
    unshifted one. *)
Lemma shift_round_le (M n : positive) (B : Z) :
  Zpos M <= B * 2 ^ Zpos n ->
  let mrs := iter_pos shr_1 n {| shr_m := Zpos M; shr_r := false; shr_s := false |} in
  Zpos M / 2 ^ Zpos n <= round_nearest_even (shr_m mrs) (loc_of_shr_record mrs) <= B
  /\ round_nearest_even (shr_m mrs) (loc_of_shr_record mrs) <= Zpos M / 2 ^ Zpos n + 1.
Proof.
  intros HB mrs. destruct (iter_shr_1_shifted M n) as [Hm Hex]. fold mrs in Hm, Hex.
  pose proof (Z.pow_pos_nonneg 2 (Zpos n) ltac:(lia) ltac:(lia)) as Hp.
  pose proof (round_nearest_even_bounds (shr_m mrs) (loc_of_shr_record mrs)) as Hr.
  rewrite Hm in *. split; [split; [lia |] | lia].
  pose proof (Z.div_mod (Zpos M) (2 ^ Zpos n) ltac:(lia)) as Hdm.
  pose proof (Z.mod_pos_bound (Zpos M) (2 ^ Zpos n) Hp) as Hmb.
  destruct (Z.lt_ge_cases (Zpos M / 2 ^ Zpos n) B) as [Hlt | Hge]; [lia |].
  assert (Hq : Zpos M / 2 ^ Zpos n = B) by nia.
  assert (Hz : Zpos M mod 2 ^ Zpos n = 0) by nia.
  destruct (Hex Hz) as [Hr0 Hs0].
  destruct mrs as [m r s]. cbn [shr_m shr_r shr_s] in *. subst r s.
  cbn [loc_of_shr_record round_nearest_even]. lia.
Qed.

Lemma fexp_value (x : Z) : fexp prec emax x = Z.max (x - 53) (-1074).
Proof. reflexivity. Qed.

Lemma shr_fexp_nop (p : positive) (e : Z) :
  -1074 <= e -> Zpos (digits2_pos p) <= 53 ->
  shr_fexp prec emax (Zpos p) e loc_Exact
  = ({| shr_m := Zpos p; shr_r := false; shr_s := false |}, e).
Proof.
  intros He Hd. unfold shr_fexp. cbn [Zdigits2 shr_record_of_loc].
  rewrite fexp_value.
  destruct (Z.max (Zpos (digits2_pos p) + e - 53) (-1074) - e) as [| k | k] eqn:Hk;
    [reflexivity | lia | reflexivity].
Qed.

Lemma bounded_canonical (p : positive) (e : Z) :
  -1074 <= e <= 971 ->
  Zpos (digits2_pos p) <= 53 ->
  (-1074 < e -> Zpos (digits2_pos p) = 53) ->
  bounded prec emax p e = true.
Proof.
  intros He Hd Hn. unfold bounded, canonical_mantissa. rewrite fexp_value.
  apply andb_true_iff. split; [apply Z.eqb_eq | apply Z.leb_le; unfold emax, prec; lia].
  destruct (Z.eq_dec e (-1074)) as [-> | Hne]; [lia |].
  rewrite Hn by lia. lia.
Qed.

(** Rounding a product or a sum whose mantissa is shifted right by [n]
    bits: the result is a valid real number that stays below every bound
    [B] counted in units of the result's exponent. *)
Lemma binary_round_aux_shift (M n : positive) (e B : Z) :
  fexp prec emax (Zpos (digits2_pos M) + e) - e = Zpos n ->
  e + Zpos n <= 970 ->
  Zpos M <= B * 2 ^ Zpos n ->
  valid_binary (binary_round_aux prec emax false (Zpos M) e loc_Exact) = true
  /\ is_real (binary_round_aux prec emax false (Zpos M) e loc_Exact) = true
  /\ 0 <= scaled (binary_round_aux prec emax false (Zpos M) e loc_Exact)
       <= B * 2 ^ (e + Zpos n + 1074).
Proof.
  intros Hn He HB.
  pose proof (digits2_pos_bounds M) as [HMlo HMhi].
  set (d := Zpos (digits2_pos M)) in *.
  rewrite fexp_value in Hn.
  set (e' := e + Zpos n) in *.
  assert (He' : -1074 <= e') by (subst e'; lia).
  assert (Hnd : d - 53 <= Zpos n) by lia.
  pose proof (Z.pow_pos_nonneg 2 (Zpos n) ltac:(lia) ltac:(lia)) as Hp.
  pose proof (Z.pow_pos_nonneg 2 (e' + 1074) ltac:(lia) ltac:(lia)) as Hu.
  destruct (shift_round_le M n B HB) as [[Hq1 Hq2] Hq3].
  remember (binary_round_aux prec emax false (Zpos M) e loc_Exact) as r eqn:Hr.
  unfold binary_round_aux in Hr. unfold shr_fexp at 1 in Hr.
  cbn [Zdigits2 shr_record_of_loc] in Hr. fold d in Hr.
  rewrite fexp_value, Hn in Hr. cbn [shr] in Hr. fold e' in Hr.
  set (mrs := iter_pos shr_1 n {| shr_m := Zpos M; shr_r := false; shr_s := false |}) in *.
  set (q := round_nearest_even (shr_m mrs) (loc_of_shr_record mrs)) in *.
  assert (Hm53 : Zpos M / 2 ^ Zpos n < 2 ^ 53).
  { apply Z.div_lt_upper_bound; [lia |].
    rewrite <- Z.pow_add_r by lia.
    pose proof (Z.pow_le_mono_r 2 d (Zpos n + 53) ltac:(lia) ltac:(lia)). lia. }
  assert (Hm52 : -1074 < e' -> 2 ^ 52 <= Zpos M / 2 ^ Zpos n).
  { intros Hne. apply Z.div_le_lower_bound; [lia |].
    rewrite <- Z.pow_add_r by lia.
    replace (Zpos n + 52) with (d - 1) by lia. exact HMlo. }
  assert (Hm0 : 0 <= Zpos M / 2 ^ Zpos n) by (apply Z.div_pos; lia).
  destruct q as [| p | p] eqn:Hq; [| | lia].
  - (* the mantissa rounds to zero *)
    assert (Hz : shr_fexp prec emax 0 e' loc_Exact
                 = ({| shr_m := 0; shr_r := false; shr_s := false |}, e')).
    { unfold shr_fexp. cbn [Zdigits2 shr_record_of_loc]. rewrite fexp_value.
      destruct (Z.max (0 + e' - 53) (-1074) - e') as [| k | k] eqn:Hk;
        [reflexivity | lia | reflexivity]. }
    rewrite Hz in Hr. cbn [shr_m] in Hr. subst r.
    cbn [valid_binary is_real scaled].
    split; [reflexivity |]. split; [reflexivity |]. nia.
  - destruct (Z.lt_ge_cases (Zpos p) (2 ^ 53)) as [Hlt | Hge].
    + (* at most 53 bits: no second shift *)
      assert (Hdp : Zpos (digits2_pos p) <= 53) by (apply digits2_pos_le; lia).
      rewrite shr_fexp_nop in Hr by assumption. cbn [shr_m] in Hr.
      replace (e' <=? emax - prec) with true in Hr
        by (symmetry; apply Z.leb_le; unfold emax, prec; lia).
      subst r. cbn [valid_binary is_real scaled cond_Zopp].
      split; [| split; [reflexivity | nia]].
      apply bounded_canonical; [lia | assumption |].
      intros Hne. apply Z.le_antisymm; [assumption |].
      apply digits2_pos_ge. change (2 ^ (53 - 1)) with (2 ^ 52).
      specialize (Hm52 Hne). lia.
    + (* the mantissa rounded up to 2^53: one more exact shift *)
      assert (Hp53 : Zpos p = 2 ^ 53) by lia.
      assert (Hd54 : Zpos (digits2_pos p) = 54).
      { apply Z.le_antisymm.
        - apply digits2_pos_le; [lia |]. rewrite Hp53. apply Z.pow_lt_mono_r; lia.
        - apply digits2_pos_ge. rewrite Hp53. change (54 - 1) with 53. lia. }
      unfold shr_fexp in Hr. cbn [Zdigits2 shr_record_of_loc] in Hr.
      rewrite Hd54, fexp_value in Hr.
      replace (Z.max (54 + e' - 53) (-1074) - e') with 1 in Hr by lia.
      cbn [shr iter_pos] in Hr.
      destruct p as [p' | p' |];
        [exfalso; rewrite Pos2Z.inj_xI in Hp53;
         change (2 ^ 53) with (2 * 2 ^ 52) in Hp53; lia
        | | discriminate Hp53].
      cbn [shr_1 orb shr_m] in Hr.
      assert (Hp52 : Zpos p' = 2 ^ 52)
        by (rewrite Pos2Z.inj_xO in Hp53; change (2 ^ 53) with (2 * 2 ^ 52) in Hp53; lia).
      assert (Hd53 : Zpos (digits2_pos p') = 53).
      { apply Z.le_antisymm.
        - apply digits2_pos_le; [lia |]. rewrite Hp52. apply Z.pow_lt_mono_r; lia.
        - apply digits2_pos_ge. rewrite Hp52. change (53 - 1) with 52. lia. }
      replace (e' + 1 <=? emax - prec) with true in Hr
        by (symmetry; apply Z.leb_le; unfold emax, prec; lia).
      subst r. cbn [valid_binary is_real scaled cond_Zopp].
      split; [apply bounded_53; lia |]. split; [reflexivity |].
      replace (e' + 1 + 1074) with (1 + (e' + 1074)) by lia.
      rewrite Z.pow_add_r, Z.pow_1_r by lia.
      rewrite Hp52. change (2 ^ 53) with (2 * 2 ^ 52) in Hp53.
      assert (HqB : 2 * 2 ^ 52 <= B) by lia.
      remember (2 ^ 52) as c52 eqn:Hc52. assert (0 < c52) by (subst c52; lia).
      clear Hc52. nia.
Qed.


Lemma scaled_unit_constants :
  scaled c0 = 0 /\ scaled c1 = 2 ^ 1074 /\ scaled c100 = 100 * 2 ^ 1074.
Proof. repeat split; vm_compute; reflexivity. Qed.

Lemma digits2_pos_mul_100 (m : positive) :
  Zpos (digits2_pos m) + 52
  <= Zpos (digits2_pos (m * 7036874417766400)) <= Zpos (digits2_pos m) + 53.
Proof.
  pose proof (digits2_pos_bounds m) as [Hlo Hhi].
  set (d := Zpos (digits2_pos m)) in *.
  assert (Hd : 1 <= d) by (subst d; lia).
  assert (HM : Zpos (m * 7036874417766400) = Zpos m * (100 * 2 ^ 46))
    by (rewrite Pos2Z.inj_mul; reflexivity).
  pose proof (Z.pow_pos_nonneg 2 (d - 1) ltac:(lia) ltac:(lia)) as Hp.
  assert (H46 : 0 < 2 ^ 46) by lia.
  split.
  - apply digits2_pos_ge. rewrite HM.
    replace (d + 52 - 1) with ((d - 1) + 52) by lia. rewrite Z.pow_add_r by lia.
    change (2 ^ 52) with (64 * 2 ^ 46). remember (2 ^ 46) as c46. nia.
  - apply digits2_pos_le; [lia |]. rewrite HM.
    rewrite Z.pow_add_r by lia. change (2 ^ 53) with (128 * 2 ^ 46).
    remember (2 ^ 46) as c46. nia.
Qed.

(** A hundred times a number between 0 and 1 lies between 0 and 100. *)
Lemma SFmul_100_window (x : spec_float) :
  valid_binary x = true ->
  SFleb c0 x = true -> SFleb x c1 = true ->
  SFleb c0 (SF64mul x c100) = true /\ SFleb (SF64mul x c100) c100 = true.
Proof.
  intros Vx H0 H1.
  assert (Rx : is_real x = true) by (apply (SFleb_between_real c0 c1); auto).
  destruct scaled_unit_constants as (S0 & S1 & S100).
  rewrite SFleb_scaled in H0, H1 by auto.
  apply Z.leb_le in H0, H1. rewrite S0 in H0. rewrite S1 in H1.
  destruct x as [s | s | | s m e]; try discriminate Rx.
  - destruct s; split; reflexivity.
  - cbn [valid_binary] in Vx.
    destruct (bounded_facts m e Vx) as (He & Hm53 & Hm52).
    pose proof (Z.pow_pos_nonneg 2 (e + 1074) ltac:(lia) ltac:(lia)) as Hu.
    cbn [scaled] in H0, H1.
    destruct s; cbn [cond_Zopp] in H0, H1; [exfalso; nia |].
    assert (He52 : e <= -52).
    { assert (e < 1 - 52); [| lia].
      apply (exponent_upper m e 1 Vx); [lia |].
      change (2 ^ 1) with 2. pose proof (Z.pow_pos_nonneg 2 1074 ltac:(lia) ltac:(lia)). lia. }
    assert (Hmle : Zpos m <= 2 ^ (- e)).
    { assert (HK : 2 ^ 1074 = 2 ^ (- e) * 2 ^ (e + 1074))
        by (rewrite <- Z.pow_add_r by lia; f_equal; lia).
      rewrite HK in H1.
      apply (Z.mul_le_mono_pos_r _ _ (2 ^ (e + 1074))); assumption. }
    unfold SF64mul. cbn [SFmul xorb].
    set (M := (m * 7036874417766400)%positive).
    set (ee := e + -46).
    pose proof (digits2_pos_mul_100 m) as HdM. fold M in HdM.
    pose proof (digits2_pos_bounds m) as [Hdlo _].
    assert (Hdm : 1 <= Zpos (digits2_pos m) <= 53).
    { split; [lia |]. apply digits2_pos_le; lia. }
    assert (Hdn : -1074 < e -> Zpos (digits2_pos m) = 53).
    { intros Hn. apply Z.le_antisymm; [lia |].
      apply digits2_pos_ge. change (2 ^ (53 - 1)) with (2 ^ 52). auto. }
    destruct (fexp prec emax (Zpos (digits2_pos M) + ee) - ee) as [| n | n] eqn:Hn;
      rewrite fexp_value in Hn; [subst ee; lia | | subst ee; lia].
    set (e' := ee + Zpos n).
    assert (He' : -1074 <= e' <= -45) by (subst e' ee; lia).
    assert (HB : Zpos M <= 100 * 2 ^ (- e') * 2 ^ Zpos n).
    { rewrite <- Z.mul_assoc, <- Z.pow_add_r by lia.
      replace (- e' + Zpos n) with (46 + - e) by (subst e' ee; lia).
      rewrite Z.pow_add_r by lia.
      subst M. rewrite Pos2Z.inj_mul.
      change (Zpos 7036874417766400) with (100 * 2 ^ 46).
      assert (0 < 2 ^ 46) by lia. remember (2 ^ 46) as c46.
      pose proof (Z.pow_pos_nonneg 2 (- e) ltac:(lia) ltac:(lia)). nia. }
    destruct (binary_round_aux_shift M n ee (100 * 2 ^ (- e')))
      as (Vr & Rr & Hr0 & Hr1); [rewrite fexp_value; exact Hn | fold e'; lia | exact HB |].
    fold e' in Hr1.
    rewrite <- Z.mul_assoc, <- Z.pow_add_r in Hr1 by lia.
    replace (- e' + (e' + 1074)) with 1074 in Hr1 by lia.
    rewrite !SFleb_scaled by auto. rewrite S0, S100.
    split; apply Z.leb_le; assumption.
Qed.

Lemma mul_100_window (c : float) :
  (0 <=? c)%float = true -> (c <=? 1)%float = true ->
  (0 <=? c * 100)%float = true /\ (c * 100 <=? 100)%float = true.
Proof.
  rewrite !leb_spec, mul_spec. intros H0 H1.
  apply SFmul_100_window; auto using Prim2SF_valid.
Qed.

(** *** The second half of rounding *)


Lemma binary_round_aux_tail (sx : bool) (mx ex : Z) (lx : location) :
  binary_round_aux prec emax sx mx ex lx
  = round_tail sx
      (round_nearest_even (shr_m (fst (shr_fexp prec emax mx ex lx)))
         (loc_of_shr_record (fst (shr_fexp prec emax mx ex lx))))
      (snd (shr_fexp prec emax mx ex lx)).
Proof.
  unfold binary_round_aux, round_tail.
  destruct (shr_fexp prec emax mx ex lx) as [mrs' e']. reflexivity.
Qed.

(** A rounded mantissa of at most 53 bits, or exactly [2^53], is stored as
    it is or halved, with its value unchanged. *)
Lemma round_tail_value (q e : Z) :
  0 <= q <= 2 ^ 53 -> -1074 <= e <= 970 ->
  (-1074 < e -> 2 ^ 52 <= q) ->
  valid_binary (round_tail false q e) = true
  /\ is_real (round_tail false q e) = true
  /\ scaled (round_tail false q e) = q * 2 ^ (e + 1074).
Proof.
  intros Hq He Hn. unfold round_tail.
  destruct q as [| p | p]; [| | lia].
  - assert (Hz : shr_fexp prec emax 0 e loc_Exact
                 = ({| shr_m := 0; shr_r := false; shr_s := false |}, e)).
    { unfold shr_fexp. cbn [Zdigits2 shr_record_of_loc]. rewrite fexp_value.
      destruct (Z.max (0 + e - 53) (-1074) - e) as [| k | k] eqn:Hk;
        [reflexivity | lia | reflexivity]. }
    rewrite Hz. cbn [shr_m valid_binary is_real scaled]. repeat split.
  - destruct (Z.lt_ge_cases (Zpos p) (2 ^ 53)) as [Hlt | Hge].
    + assert (Hdp : Zpos (digits2_pos p) <= 53) by (apply digits2_pos_le; lia).
      rewrite shr_fexp_nop by (assumption || lia). cbn [shr_m].
      replace (e <=? emax - prec) with true
        by (symmetry; apply Z.leb_le; unfold emax, prec; lia).
      cbn [valid_binary is_real scaled cond_Zopp].
      split; [| split; reflexivity].
      apply bounded_canonical; [lia | assumption |].
      intros Hne. apply Z.le_antisymm; [assumption |].
      apply digits2_pos_ge. change (2 ^ (53 - 1)) with (2 ^ 52). auto.
    + assert (Hp53 : Zpos p = 2 ^ 53) by lia.
      assert (Hd54 : Zpos (digits2_pos p) = 54).
      { apply Z.le_antisymm.
        - apply digits2_pos_le; [lia |]. rewrite Hp53. apply Z.pow_lt_mono_r; lia.
        - apply digits2_pos_ge. rewrite Hp53. change (54 - 1) with 53. lia. }
      unfold shr_fexp. cbn [Zdigits2 shr_record_of_loc]. rewrite Hd54, fexp_value.
      replace (Z.max (54 + e - 53) (-1074) - e) with 1 by lia.
      cbn [shr iter_pos].
      destruct p as [p' | p' |];
        [exfalso; rewrite Pos2Z.inj_xI in Hp53;
         change (2 ^ 53) with (2 * 2 ^ 52) in Hp53; lia
        | | discriminate Hp53].
      cbn [shr_1 orb shr_m].
      assert (Hp52 : Zpos p' = 2 ^ 52)
        by (rewrite Pos2Z.inj_xO in Hp53; change (2 ^ 53) with (2 * 2 ^ 52) in Hp53; lia).
      assert (Hd53 : Zpos (digits2_pos p') = 53).
      { apply Z.le_antisymm.
        - apply digits2_pos_le; [lia |]. rewrite Hp52. apply Z.pow_lt_mono_r; lia.
        - apply digits2_pos_ge. rewrite Hp52. change (53 - 1) with 52. lia. }
      replace (e + 1 <=? emax - prec) with true
        by (symmetry; apply Z.leb_le; unfold emax, prec; lia).
      cbn [valid_binary is_real scaled cond_Zopp].
      split; [apply bounded_53; lia |]. split; [reflexivity |].
      replace (e + 1 + 1074) with (1 + (e + 1074)) by lia.
      rewrite Z.pow_add_r, Z.pow_1_r by lia.
      rewrite (Pos2Z.inj_xO p'). ring.
Qed.

(** Rounding an exactly known mantissa that is shifted right by [n] bits:
    the result is a valid real number between any two bounds counted in
    units of the result's exponent. *)
Lemma binary_round_aux_between (M n : positive) (e Blo Bhi : Z) :
  fexp prec emax (Zpos (digits2_pos M) + e) - e = Zpos n ->
  e + Zpos n <= 970 ->
  Blo * 2 ^ Zpos n <= Zpos M <= Bhi * 2 ^ Zpos n ->
  valid_binary (binary_round_aux prec emax false (Zpos M) e loc_Exact) = true
  /\ is_real (binary_round_aux prec emax false (Zpos M) e loc_Exact) = true
  /\ Blo * 2 ^ (e + Zpos n + 1074)
     <= scaled (binary_round_aux prec emax false (Zpos M) e loc_Exact)
     <= Bhi * 2 ^ (e + Zpos n + 1074).
Proof.
  intros Hn He [HBlo HBhi].
  pose proof (digits2_pos_bounds M) as [HMlo HMhi].
  set (d := Zpos (digits2_pos M)) in *.
  assert (Hn' := Hn). rewrite fexp_value in Hn'.
  pose proof (Z.pow_pos_nonneg 2 (Zpos n) ltac:(lia) ltac:(lia)) as Hp.
  pose proof (Z.pow_pos_nonneg 2 (e + Zpos n + 1074) ltac:(lia) ltac:(lia)) as Hu.
  destruct (shift_round_le M n Bhi HBhi) as [[Hq1 Hq2] Hq3].
  rewrite binary_round_aux_tail.
  assert (Hs : shr_fexp prec emax (Zpos M) e loc_Exact
               = (iter_pos shr_1 n {| shr_m := Zpos M; shr_r := false; shr_s := false |},
                  e + Zpos n)).
  { unfold shr_fexp. cbn [Zdigits2 shr_record_of_loc]. fold d. rewrite Hn. reflexivity. }
  rewrite Hs. cbn [fst snd].
  set (mrs := iter_pos shr_1 n {| shr_m := Zpos M; shr_r := false; shr_s := false |}) in *.
  set (q := round_nearest_even (shr_m mrs) (loc_of_shr_record mrs)) in *.
  assert (Hm53 : Zpos M / 2 ^ Zpos n < 2 ^ 53).
  { apply Z.div_lt_upper_bound; [lia |].
    rewrite <- Z.pow_add_r by lia.
    pose proof (Z.pow_le_mono_r 2 d (Zpos n + 53) ltac:(lia) ltac:(lia)). lia. }
  assert (Hm52 : -1074 < e + Zpos n -> 2 ^ 52 <= Zpos M / 2 ^ Zpos n).
  { intros Hne. apply Z.div_le_lower_bound; [lia |].
    rewrite <- Z.pow_add_r by lia.
    replace (Zpos n + 52) with (d - 1) by lia. exact HMlo. }
  assert (Hm0 : 0 <= Zpos M / 2 ^ Zpos n) by (apply Z.div_pos; lia).
  assert (Hlo : Blo <= Zpos M / 2 ^ Zpos n)
    by (apply Z.div_le_lower_bound; lia).
  destruct (round_tail_value q (e + Zpos n)) as (Vr & Rr & Sr); [lia | lia | |].
  { intros Hne. specialize (Hm52 Hne). lia. }
  split; [exact Vr |]. split; [exact Rr |]. rewrite Sr.
  split; apply Z.mul_le_mono_nonneg_r; lia.
Qed.

(** *** Twice a diastolic pressure *)


Lemma scaled_map_constants :
  scaled c63 = 63 * 2 ^ 1074 /\ scaled c124 = 124 * 2 ^ 1074.
Proof. repeat split; vm_compute; reflexivity. Qed.

Lemma digits2_pos_53 (m : positive) (e : Z) :
  bounded prec emax m e = true -> -1074 < e -> Zpos (digits2_pos m) = 53.
Proof.
  intros Hb He. destruct (bounded_facts m e Hb) as (_ & Hhi & Hlo).
  apply Z.le_antisymm.
  - apply digits2_pos_le; lia.
  - apply digits2_pos_ge. change (2 ^ (53 - 1)) with (2 ^ 52). auto.
Qed.

Lemma SFmul_2_exact (m : positive) (e : Z) :
  bounded prec emax m e = true -> -1074 < e <= 900 ->
  valid_binary (SF64mul c2 (S754_finite false m e)) = true
  /\ is_real (SF64mul c2 (S754_finite false m e)) = true
  /\ scaled (SF64mul c2 (S754_finite false m e)) = 2 * (Zpos m * 2 ^ (e + 1074)).
Proof.
  intros Hb He. unfold SF64mul, c2. cbn [SFmul xorb].
  pose proof (digits2_pos_53 m e Hb ltac:(lia)) as Hd.
  destruct (bounded_facts m e Hb) as (_ & Hhi & Hlo). specialize (Hlo ltac:(lia)).
  set (M := (4503599627370496 * m)%positive).
  assert (HM : Zpos M = 2 ^ 52 * Zpos m) by (subst M; rewrite Pos2Z.inj_mul; reflexivity).
  assert (HdM : Zpos (digits2_pos M) = 105).
  { apply Z.le_antisymm.
    - apply digits2_pos_le; [lia |]. rewrite HM.
      change (2 ^ 105) with (2 ^ 52 * 2 ^ 53). apply Z.mul_lt_mono_pos_l; lia.
    - apply digits2_pos_ge. rewrite HM.
      change (2 ^ (105 - 1)) with (2 ^ 52 * 2 ^ 52). apply Z.mul_le_mono_nonneg_l; lia. }
  destruct (binary_round_aux_between M 52 (-51 + e) (Zpos m) (Zpos m))
    as (Vr & Rr & Hr).
  - rewrite HdM, fexp_value. lia.
  - lia.
  - rewrite HM. change (2 ^ Zpos 52) with (2 ^ 52). lia.
  - split; [exact Vr |]. split; [exact Rr |].
    replace (-51 + e + Zpos 52 + 1074) with (1 + (e + 1074)) in Hr by lia.
    rewrite Z.pow_add_r, Z.pow_1_r in Hr by lia. lia.
Qed.

(** *** Systolic plus twice diastolic *)

Lemma SFadd_window (x t : spec_float) :
  valid_binary x = true -> valid_binary t = true ->
  is_real x = true -> is_real t = true ->
  70 * 2 ^ 1074 <= scaled x <= 130 * 2 ^ 1074 ->
  120 * 2 ^ 1074 <= scaled t <= 240 * 2 ^ 1074 ->
  valid_binary (SF64add x t) = true
  /\ is_real (SF64add x t) = true
  /\ 190 * 2 ^ 1074 <= scaled (SF64add x t) <= 370 * 2 ^ 1074.
Proof.
  intros Vx Vt Rx Rt Hx Ht.
  destruct (finite_in_window x 70 130 6 8 Vx Rx
              ltac:(lia) ltac:(lia) ltac:(lia) ltac:(lia) ltac:(lia) Hx)
    as (mx & ex & -> & Bx & Hex).
  destruct (finite_in_window t 120 240 6 8 Vt Rt
              ltac:(lia) ltac:(lia) ltac:(lia) ltac:(lia) ltac:(lia) Ht)
    as (mt & et & -> & Bt & Het).
  cbn [scaled cond_Zopp] in Hx, Ht.
  destruct (bounded_facts mx ex Bx) as (_ & Hxhi & Hxlo). specialize (Hxlo ltac:(lia)).
  destruct (bounded_facts mt et Bt) as (_ & Hthi & Htlo). specialize (Htlo ltac:(lia)).
  unfold SF64add. cbn [SFadd cond_Zopp].
  set (ez := Z.min ex et).
  assert (Hsum : Zpos (fst (shl_align mx ex ez)) + Zpos (fst (shl_align mt et ez))
                 = Zpos (fst (shl_align mx ex ez) + fst (shl_align mt et ez))) by reflexivity.
  rewrite Hsum. clear Hsum. cbn [binary_normalize]. unfold binary_round.
  set (p := (fst (shl_align mx ex ez) + fst (shl_align mt et ez))%positive).
  assert (Hp : Zpos p = Zpos mx * 2 ^ (ex - ez) + Zpos mt * 2 ^ (et - ez)).
  { subst p. rewrite Pos2Z.inj_add, !shl_align_value by (subst ez; lia). reflexivity. }
  assert (Hwin : 2 ^ 53 <= Zpos p < 2 ^ 55
                 /\ 190 * 2 ^ (- ez) <= Zpos p <= 370 * 2 ^ (- ez)).
  { rewrite Hp.
    assert (ex = -46 \/ ex = -45) as [-> | ->] by lia;
    assert (et = -46 \/ et = -45) as [-> | ->] by lia;
    subst ez; eval_exponents; lia. }
  destruct Hwin as [[Hp53 Hp55] [Hplo Hphi]].
  assert (Hd : 54 <= Zpos (digits2_pos p) <= 55).
  { split; [apply digits2_pos_ge; change (2 ^ (54 - 1)) with (2 ^ 53); lia
           | apply digits2_pos_le; lia]. }
  assert (Hez : -46 <= ez <= -45) by (subst ez; lia).
  rewrite fexp_value. unfold shl_align.
  destruct (Z.max (Zpos (digits2_pos p) + ez - 53) (-1074) - ez) as [| k | k] eqn:Hk;
    [lia | | lia].
  assert (Hkn : Zpos k = Zpos (digits2_pos p) - 53) by lia.
  assert (H2k : 2 ^ (- ez) = 2 ^ (- (ez + Zpos k)) * 2 ^ Zpos k)
    by (rewrite <- Z.pow_add_r by lia; f_equal; lia).
  destruct (binary_round_aux_between p k ez
              (190 * 2 ^ (- (ez + Zpos k))) (370 * 2 ^ (- (ez + Zpos k))))
    as (Vr & Rr & Hr).
  - rewrite fexp_value. exact Hk.
  - lia.
  - rewrite <- !Z.mul_assoc, <- H2k. lia.
  - split; [exact Vr |]. split; [exact Rr |].
    rewrite <- !Z.mul_assoc, <- !Z.pow_add_r in Hr by lia.
    replace (- (ez + Zpos k) + (ez + Zpos k + 1074)) with 1074 in Hr by lia.
    exact Hr.
Qed.

(** *** A third of the sum *)

Lemma loc_of_record_of_loc (m : Z) (l : location) :
  loc_of_shr_record (shr_record_of_loc m l) = l.
Proof. destruct l as [| []]; reflexivity. Qed.

Lemma shr_1_halves (p : positive) (l : location) :
  2 * shr_m (shr_1 (shr_record_of_loc (Zpos p) l)) <= Zpos p
  <= 2 * shr_m (shr_1 (shr_record_of_loc (Zpos p) l)) + 1.
Proof.
  destruct l as [| []]; destruct p as [p | p |]; cbn [shr_record_of_loc shr_1 shr_m];
    rewrite ?(Pos2Z.inj_xI p), ?(Pos2Z.inj_xO p); lia.
Qed.

(** Rounding a quotient of 53 or 54 bits, whatever the remainder: the
    stored mantissa is the quotient (halved if it has 54 bits) or the next
    integer. *)
Lemma binary_round_aux_quotient (q : positive) (e : Z) (l : location) :
  2 ^ 52 <= Zpos q < 2 ^ 54 -> -1074 < e <= 900 ->
  exists (q1 e1 : Z),
    valid_binary (binary_round_aux prec emax false (Zpos q) e l) = true
    /\ is_real (binary_round_aux prec emax false (Zpos q) e l) = true
    /\ scaled (binary_round_aux prec emax false (Zpos q) e l) = q1 * 2 ^ (e1 + 1074)
    /\ ((e1 = e /\ Zpos q <= q1 <= Zpos q + 1)
        \/ (e1 = e + 1 /\ 2 * q1 - 2 <= Zpos q <= 2 * q1 + 1)).
Proof.
  intros Hq He. rewrite binary_round_aux_tail.
  assert (Hd : 53 <= Zpos (digits2_pos q) <= 54).
  { split; [apply digits2_pos_ge; change (2 ^ (53 - 1)) with (2 ^ 52); lia
           | apply digits2_pos_le; lia]. }
  unfold shr_fexp. cbn [Zdigits2]. rewrite fexp_value.
  destruct (Z.eq_dec (Zpos (digits2_pos q)) 53) as [Hd53 | Hd54].
  - replace (Z.max (Zpos (digits2_pos q) + e - 53) (-1074) - e) with 0 by lia.
    cbn [shr fst snd]. rewrite loc_of_record_of_loc.
    assert (Hq53 : Zpos q < 2 ^ 53).
    { pose proof (digits2_pos_bounds q) as [_ Hhi]. rewrite Hd53 in Hhi. exact Hhi. }
    assert (Hm : shr_m (shr_record_of_loc (Zpos q) l) = Zpos q)
      by (destruct l as [| []]; reflexivity).
    rewrite Hm.
    pose proof (round_nearest_even_bounds (Zpos q) l) as Hr.
    destruct (round_tail_value (round_nearest_even (Zpos q) l) e) as (Vr & Rr & Sr);
      [lia | lia | lia |].
    exists (round_nearest_even (Zpos q) l), e.
    split; [exact Vr |]. split; [exact Rr |]. split; [exact Sr |]. left. lia.
  - replace (Z.max (Zpos (digits2_pos q) + e - 53) (-1074) - e) with 1 by lia.
    cbn [shr iter_pos fst snd].
    pose proof (shr_1_halves q l) as Hh.
    set (mrs := shr_1 (shr_record_of_loc (Zpos q) l)) in *.
    pose proof (round_nearest_even_bounds (shr_m mrs) (loc_of_shr_record mrs)) as Hr.
    set (q1 := round_nearest_even (shr_m mrs) (loc_of_shr_record mrs)) in *.
    assert (Hq54 : 2 ^ 53 <= Zpos q).
    { pose proof (digits2_pos_bounds q) as [Hlo _].
      replace (Zpos (digits2_pos q)) with 54 in Hlo by lia. exact Hlo. }
    change (2 ^ 54) with (2 * 2 ^ 53) in Hq. change (2 ^ 53) with (2 * 2 ^ 52) in *.
    destruct (round_tail_value q1 (e + 1)) as (Vr & Rr & Sr);
      [change (2 ^ 53) with (2 * 2 ^ 52); lia | lia | lia |].
    exists q1, (e + 1).
    split; [exact Vr |]. split; [exact Rr |]. split; [exact Sr |]. right. lia.
Qed.

Lemma SFdiv_3_window (x : spec_float) :
  valid_binary x = true -> is_real x = true ->
  190 * 2 ^ 1074 <= scaled x <= 370 * 2 ^ 1074 ->
  valid_binary (SF64div x c3) = true
  /\ is_real (SF64div x c3) = true
  /\ 63 * 2 ^ 1074 <= scaled (SF64div x c3) <= 124 * 2 ^ 1074.
Proof.
  intros Vx Rx Hx.
  destruct (finite_in_window x 190 370 7 9 Vx Rx
              ltac:(lia) ltac:(lia) ltac:(lia) ltac:(lia) ltac:(lia) Hx)
    as (m & e & -> & Bm & He).
  cbn [scaled cond_Zopp] in Hx.
  destruct (bounded_facts m e Bm) as (_ & Hmhi & Hmlo). specialize (Hmlo ltac:(lia)).
  pose proof (digits2_pos_53 m e Bm ltac:(lia)) as Hd.
  unfold SF64div, c3. cbn [SFdiv xorb]. unfold SFdiv_core_binary.
  cbn [Zdigits2]. rewrite Hd.
  change (Zpos (digits2_pos 6755399441055744)) with 53.
  rewrite fexp_value.
  replace (Z.min (Z.max (53 + e - (53 + -51) - 53) (-1074)) (e - -51)) with (e - 2) by lia.
  replace (e - -51 - (e - 2)) with 53 by lia.
  assert (Hshift : Z.shiftl (Zpos m) 53 = Zpos m * 2 ^ 53)
    by (apply Z.shiftl_mul_pow2; lia).
  rewrite Hshift.
  pose proof (Z_div_mod (Zpos m * 2 ^ 53) 6755399441055744 ltac:(lia)) as Hdm.
  destruct (Z.div_eucl (Zpos m * 2 ^ 53) 6755399441055744) as [q r].
  destruct Hdm as [Hqr Hr].
  change 6755399441055744 with (3 * 2 ^ 51) in Hqr, Hr.
  change (2 ^ 53) with (4 * 2 ^ 51) in Hqr.
  assert (Hq3 : 3 * q <= 4 * Zpos m < 3 * q + 3) by lia.
  change (2 ^ 53) with (2 * 2 ^ 52) in Hmhi.
  destruct q as [| q | q]; [lia | | lia].
  destruct (binary_round_aux_quotient q (e - 2)
              (new_location (Zpos 6755399441055744) r))
    as (q1 & e1 & Vr & Rr & Sr & Hq1);
    [change (2 ^ 54) with (4 * 2 ^ 52); lia | lia |].
  split; [exact Vr |]. split; [exact Rr |]. rewrite Sr.
  assert (e = -45 \/ e = -44) as [-> | ->] by lia;
    destruct Hq1 as [[-> Hq1] | [-> Hq1]]; eval_exponents; lia.
Qed.

(** *** The mean arterial pressure *)

Lemma SFmap_window (x y : spec_float) :
  valid_binary x = true -> valid_binary y = true ->
  SFleb c70 x = true -> SFleb x c130 = true ->
  SFleb c60 y = true -> SFleb y c120 = true ->
  SFleb c63 (SF64div (SF64add x (SF64mul c2 y)) c3) = true
  /\ SFleb (SF64div (SF64add x (SF64mul c2 y)) c3) c124 = true.
Proof.
  intros Vx Vy Hx1 Hx2 Hy1 Hy2.
  assert (Rx : is_real x = true) by (apply (SFleb_between_real c70 c130); auto).
  assert (Ry : is_real y = true) by (apply (SFleb_between_real c60 c120); auto).
  destruct scaled_constants as (S70 & S130 & S60 & S120 & _).
  destruct scaled_map_constants as (S63 & S124).
  rewrite SFleb_scaled in Hx1, Hx2, Hy1, Hy2 by auto.
  apply Z.leb_le in Hx1, Hx2, Hy1, Hy2.
  rewrite S70 in Hx1. rewrite S130 in Hx2. rewrite S60 in Hy1. rewrite S120 in Hy2.
  destruct (finite_in_window y 60 120 5 7 Vy Ry
              ltac:(lia) ltac:(lia) ltac:(lia) ltac:(lia) ltac:(lia) (conj Hy1 Hy2))
    as (my & ey & -> & By & Hey).
  cbn [scaled cond_Zopp] in Hy1, Hy2.
  destruct (SFmul_2_exact my ey By ltac:(lia)) as (Vt & Rt & St).
  destruct (SFadd_window x (SF64mul c2 (S754_finite false my ey)) Vx Vt Rx Rt
              (conj Hx1 Hx2) ltac:(rewrite St; lia))
    as (Vs & Rs & Hs).
  destruct (SFdiv_3_window _ Vs Rs Hs) as (Vm & Rm & Hm).
  rewrite !SFleb_scaled by auto. rewrite S63, S124.
  split; apply Z.leb_le; lia.
Qed.

Lemma map_window (s d : float) :
  (70 <=? s)%float = true -> (s <=? 130)%float = true ->
  (60 <=? d)%float = true -> (d <=? 120)%float = true ->
  (63 <=? (s + 2 * d) / 3)%float = true /\ ((s + 2 * d) / 3 <=? 124)%float = true.
Proof.
  rewrite !leb_spec, div_spec, add_spec, mul_spec. intros H1 H2 H3 H4.
  apply SFmap_window; auto using Prim2SF_valid.
Qed.

End Binary64.

(** ** The reported confidence *)

(** C1. Whatever the classifier answers, the confidence the invoker reports
    is the entry of the probability vector at the index given by the
    predicted label ([pred_proba[prediction]]); nothing compares the entries
    of the vector, so this is so also when that entry is not the largest. *)
Theorem confidence_is_entry_at_predicted_label
    (model : Model) (req : PredictionRequest)
    (labels : list Z) (prediction : Z)
    (probabilities : list (list float)) (pred_proba : list float) :
  predict model (input_df req) = Ok labels ->
  py_index labels 0 = Ok prediction ->
  predict_proba model (input_df req) = Ok probabilities ->
  py_index probabilities 0 = Ok pred_proba ->
  outcome (invoke model req) =
  match py_index pred_proba prediction with
  | Ok confidence => Ok (prediction, confidence)
  | Raise e => Raise e
  end.
Proof.
  intros Hl Hp Hps Hpp. rewrite invoke_cases. cbv zeta.
  rewrite Hl, Hp, Hps, Hpp.
  destruct (py_index pred_proba prediction); reflexivity.
Qed.

Lemma confidence_is_entry_at_predicted_label_witness :
  outcome (invoke contrarian_model default_request) = Ok (1, 0.25%float).
Proof.
  exact (confidence_is_entry_at_predicted_label contrarian_model default_request
           [1] 1 [[0.75; 0.25]%float] [0.75; 0.25]%float
           eq_refl eq_refl eq_refl eq_refl).
Defined.

(** ** What the classifier is given *)

(** C5. In every execution the classifier is called with nothing but the
    frame of the four raw fields, in the order age, systolic_bp,
    diastolic_bp, cholesterol: the calls are [predict] and then
    [predict_proba] on that frame (both of them when a submitted run
    completes, none without a submission), and neither derived metric is a
    column of the frame. *)
Theorem classifier_receives_the_four_raw_fields (env : Env) :
  let req := input_form env in
  let frame :=
    {| columns := ["age"; "systolic_bp"; "diastolic_bp"; "cholesterol"];
       records := [[VInt (age req); VFloat (systolic_bp req);
                    VFloat (diastolic_bp req); VFloat (cholesterol req)]] |} in
  (exists n : nat,
     model_calls (page (app env)) = firstn n [("predict", frame); ("predict_proba", frame)]
     /\ (if submitted env
         then if completes (app env) then n = 2%nat else (n <= 2)%nat
         else n = 0%nat))
  /\ ~ In "pulse_pressure" (columns frame)
  /\ ~ In "mean_arterial_pressure" (columns frame).
Proof.
  intros req frame. split.
  - destruct (app_calls env) as (n & Hcalls & Hsub & Hnot).
    change (both_calls (input_df (input_form env)))
      with [("predict", frame); ("predict_proba", frame)] in Hcalls.
    exists (Nat.min n 2). split.
    + rewrite Hcalls. destruct n as [| [| [| n]]]; reflexivity.
    + destruct (submitted env).
      * destruct (completes (app env)); [rewrite Hsub by reflexivity; reflexivity | lia].
      * rewrite Hnot by reflexivity. reflexivity.
  - split; cbn; intros H; repeat (destruct H as [H | H]; [discriminate H |]); exact H.
Qed.

(** ** The animations *)

Lemma welcome_with_refused_fetches (env : Env) :
  (forall url, exists r, requests_get env url = Ok r /\ status_code r <> 200) ->
  welcome env =
  ([Markdown "### 👋 Welcome to Your Eye Health Companion";
    Warning "⚠️ Animation couldn't load.";
    Warning "⚠️ Animation couldn't load."], Ok tt).
Proof.
  intros H.
  assert (Hload : forall url, load_lottie_url env url = ([], Ok JNull)).
  { intros url. destruct (H url) as (r & Hr & Hs).
    unfold load_lottie_url. rewrite Hr. cbn.
    apply Z.eqb_neq in Hs. rewrite Hs. reflexivity. }
  unfold welcome, urls. cbn [for_each]. rewrite !Hload. reflexivity.
Qed.

(** An exception in the first fetch leaves the welcome block, and with it
    the run, at the heading. *)
Lemma welcome_stops_at_first_fetch (env : Env) (e : exn) :
  outcome (load_lottie_url env "https://assets1.lottiefiles.com/packages/lf20_3vbOcw.json")
  = Raise e ->
  welcome env = ([Markdown "### 👋 Welcome to Your Eye Health Companion"], Raise e).
Proof.
  intros H. unfold welcome, urls. cbn [for_each].
  pose proof (load_lottie_url_calls env
                "https://assets1.lottiefiles.com/packages/lf20_3vbOcw.json") as Hp.
  destruct (load_lottie_url env "https://assets1.lottiefiles.com/packages/lf20_3vbOcw.json")
    as [t r]. cbn in H, Hp. subst t r. reflexivity.
Qed.

Lemma malformed_body_raises (env : Env) (url : string) (r : Response) :
  requests_get env url = Ok r -> status_code r = 200 -> json_body r = None ->
  outcome (load_lottie_url env url) = Raise JSONDecodeError.
Proof.
  intros Hr Hs Hb. unfold load_lottie_url. rewrite Hr. cbn. rewrite Hs, Hb. reflexivity.
Qed.

Lemma failed_request_raises (env : Env) (url : string) (e : exn) :
  requests_get env url = Raise e -> outcome (load_lottie_url env url) = Raise e.
Proof. intros Hr. unfold load_lottie_url. rewrite Hr. reflexivity. Qed.

Lemma app_stops_with_welcome (env : Env) (model : Model) (t : trace) (e : exn) :
  artifact env = Ok model ->
  welcome env = (t, Raise e) ->
  app env =
  (Title "👁️🩺 Diabetic Retinopathy Prediction App"
   :: Markdown "This app predicts whether a person shows signs of diabetic retinopathy based on input health features."
   :: t, Raise e).
Proof.
  intros Ha Hw. unfold app, load_model. rewrite Ha, Hw. reflexivity.
Qed.

(** Whatever else the session holds, a first answer of 200 with a body that
    is not JSON ends the run before the form. *)
Corollary malformed_first_body_ends_run (env : Env) (model : Model) (r : Response) :
  artifact env = Ok model ->
  requests_get env "https://assets1.lottiefiles.com/packages/lf20_3vbOcw.json" = Ok r ->
  status_code r = 200 -> json_body r = None ->
  outcome (app env) = Raise JSONDecodeError
  /\ model_calls (page (app env)) = []
  /\ downloads (page (app env)) = [].
Proof.
  intros Ha Hr Hs Hb.
  rewrite (app_stops_with_welcome env model _ JSONDecodeError Ha
             (welcome_stops_at_first_fetch env _ (malformed_body_raises env _ r Hr Hs Hb))).
  repeat split.
Qed.

Corollary failed_first_request_ends_run (env : Env) (model : Model) (e : exn) :
  artifact env = Ok model ->
  requests_get env "https://assets1.lottiefiles.com/packages/lf20_3vbOcw.json" = Raise e ->
  outcome (app env) = Raise e
  /\ model_calls (page (app env)) = []
  /\ downloads (page (app env)) = [].
Proof.
  intros Ha Hr.
  rewrite (app_stops_with_welcome env model _ e Ha
             (welcome_stops_at_first_fetch env _ (failed_request_raises env _ e Hr))).
  repeat split.
Qed.

(** C2. Two sessions in which the form is submitted with its defaults and
    the classifier is sound.  When the server answers 200 with a body that
    is not JSON, [r.json()] raises and the run ends with [JSONDecodeError]
    before the form: no warning is shown, the classifier is never called and
    no report is offered.  When [requests.get] times out, the run ends with
    [Timeout] in the same way.  The same session with both fetches answered
    404 shows the two warnings and completes with the prediction. *)
Theorem animation_fetch_exception_aborts_run :
  outcome (app (default_session malformed_network)) = Raise JSONDecodeError
  /\ warnings (page (app (default_session malformed_network))) = 0%nat
  /\ model_calls (page (app (default_session malformed_network))) = []
  /\ downloads (page (app (default_session malformed_network))) = []
  /\ outcome (app (default_session timeout_network)) = Raise Timeout
  /\ model_calls (page (app (default_session timeout_network))) = []
  /\ downloads (page (app (default_session timeout_network))) = []
  /\ outcome (app (default_session not_found_network)) = Ok tt
  /\ warnings (page (app (default_session not_found_network))) = 2%nat
  /\ List.length (model_calls (page (app (default_session not_found_network)))) = 2%nat
  /\ List.length (downloads (page (app (default_session not_found_network)))) = 1%nat.
Proof. vm_compute. repeat split. Qed.

(** ** The derived metrics *)

(** C4. The derived metrics are the difference and the weighted mean of the
    two pressures, computed by a total function; for 120.0 and 80.0 they
    print as 40.00 and 93.33, and for 130.0 and 60.0 as 70.00 and 83.33. *)
Theorem derived_metrics_formula (systolic diastolic : float) :
  derived_metrics systolic diastolic
  = ((systolic - diastolic)%float, ((systolic + 2 * diastolic) / 3)%float)
  /\ (let '(pp, mp) := derived_metrics 120 80 in (format_2f pp, format_2f mp))
     = ("40.00", "93.33")
  /\ (let '(pp, mp) := derived_metrics 130 60 in (format_2f pp, format_2f mp))
     = ("70.00", "83.33").
Proof. split; [reflexivity |]. split; vm_compute; reflexivity. Qed.

(** ** The gauge *)

(** C8. The chart that is drawn is the gauge whose value is the confidence
    times 100, whose axis runs from 0 to 100, whose three bands are 0-50,
    50-75 and 75-100 in fixed colours, and whose threshold marker sits at
    the same confidence times 100. *)
Theorem gauge_layout (env : Env) (prediction : Z) (confidence pp mp : float) :
  let g := gauge prediction confidence in
  charts (page (render env prediction confidence pp mp)) = [g]
  /\ value g = (confidence * 100)%float
  /\ axis_range g = (0, 100)
  /\ map step_range (steps g) = [(0, 50); (50, 75); (75, 100)]
  /\ map step_color (steps g) = ["#d4edda"; "#fff3cd"; "#f8d7da"]
  /\ threshold_value g = (confidence * 100)%float.
Proof.
  cbv zeta. split; [| repeat split].
  unfold render, result_message. destruct (prediction =? 1); reflexivity.
Qed.

(** ** The two tests of the label *)



(** Outside the two labels the tests differ: 2 is not 1 but it is true. *)
Remark label_two_takes_both_sides :
  shows_success (page (result_message 2 0.75%float)) = true
  /\ label_text 2 = "DR Present".
Proof. split; reflexivity. Qed.

(** ** The report *)

(** C7. The report that is offered for download reads, line by line, the
    label as DR Present or No DR, the confidence, the pulse pressure and the
    mean arterial pressure, each number printed with the format [.2f], which
    for every finite number is a numeral with exactly two fractional digits;
    the file is offered under the name dr_prediction_report.txt. *)
Theorem report_contents (env : Env) (prediction : Z) (confidence pp mp : float) :
  report prediction confidence pp mp
  = (nl ++ "Prediction: " ++ (if (prediction =? 0)%Z then "No DR" else "DR Present") ++ nl
     ++ "Confidence: " ++ format_2f confidence ++ nl
     ++ "Pulse Pressure: " ++ format_2f pp ++ nl
     ++ "Mean Arterial Pressure: " ++ format_2f mp ++ nl)%string
  /\ downloads (page (render env prediction confidence pp mp))
     = [("dr_prediction_report.txt", report prediction confidence pp mp)]
  /\ (is_finite confidence = true -> two_decimal_numeral (format_2f confidence))
  /\ (is_finite pp = true -> two_decimal_numeral (format_2f pp))
  /\ (is_finite mp = true -> two_decimal_numeral (format_2f mp)).
Proof.
  split; [| split; [| repeat split; apply format_2f_two_decimals]].
  - unfold report, label_text. destruct (prediction =? 0); reflexivity.
  - unfold render, result_message. destruct (prediction =? 1); reflexivity.
Qed.

Lemma report_contents_witness :
  report 1 0.75%float 40%float 93.5%float
  = (nl ++ "Prediction: DR Present" ++ nl ++ "Confidence: 0.75" ++ nl
     ++ "Pulse Pressure: 40.00" ++ nl ++ "Mean Arterial Pressure: 93.50" ++ nl)%string
  /\ two_decimal_numeral (format_2f 0.75%float)
  /\ two_decimal_numeral (format_2f 40%float)
  /\ two_decimal_numeral (format_2f 93.5%float).
Proof.
  destruct (report_contents (default_session healthy_network) 1 0.75%float 40%float 93.5%float)
    as (Hreport & _ & Hc & Hpp & Hmp).
  split; [exact Hreport |].
  split; [apply Hc; reflexivity |].
  split; [apply Hpp; reflexivity | apply Hmp; reflexivity].
Defined.

(** ** The input form *)

Section NumberInput.

Context {T : Type} (leb : T -> T -> bool) (lo hi : T).

Hypothesis leb_lo_lo : leb lo lo = true.
Hypothesis leb_lo_hi : leb lo hi = true.
Hypothesis leb_hi_hi : leb hi hi = true.

Let within (v : T) : bool := leb lo v && leb v hi.

Lemma commit_in_range (policy : enforcement) (current entry : T) :
  within current = true -> within (commit leb lo hi policy current entry) = true.
Proof.
  unfold within, commit. intros Hv.
  destruct (leb lo entry && leb entry hi) eqn:Hin; [exact Hin |].
  destruct policy; [| exact Hv].
  destruct (leb entry lo);
    [rewrite leb_lo_lo, leb_lo_hi | rewrite leb_lo_hi, leb_hi_hi]; reflexivity.
Qed.

Lemma number_input_in_range (policy : enforcement) (entries : list T) (v : T) :
  leb lo v && leb v hi = true ->
  leb lo (number_input leb lo hi v policy entries)
  && leb (number_input leb lo hi v policy entries) hi = true.
Proof.
  unfold number_input. revert v.
  induction entries as [| entry entries IH]; intros v Hv; [exact Hv |].
  cbn [fold_left]. apply IH. now apply commit_in_range.
Qed.

End NumberInput.

Lemma number_input_snoc {T : Type} (leb : T -> T -> bool) (lo hi v : T)
    (policy : enforcement) (entries : list T) (typed : T) :
  number_input leb lo hi v policy (entries ++ [typed])
  = if leb lo typed && leb typed hi then typed
    else match policy with
         | Reject => number_input leb lo hi v policy entries
         | Clamp => if leb typed lo then lo else hi
         end.
Proof. unfold number_input. rewrite fold_left_app. reflexivity. Qed.

Lemma input_form_in_domain (env : Env) : in_domain (input_form env) = true.
Proof.
  unfold in_domain, input_form. cbn [age systolic_bp diastolic_bp cholesterol].
  pose proof (number_input_in_range Z.leb 30 105 eq_refl eq_refl eq_refl
                (out_of_range env) (age_entries env) 50 eq_refl) as Ha.
  pose proof (number_input_in_range PrimFloat.leb 70%float 130%float eq_refl eq_refl eq_refl
                (out_of_range env) (systolic_entries env) 120%float eq_refl) as Hs.
  pose proof (number_input_in_range PrimFloat.leb 60%float 120%float eq_refl eq_refl eq_refl
                (out_of_range env) (diastolic_entries env) 80%float eq_refl) as Hd.
  pose proof (number_input_in_range PrimFloat.leb 70%float 130%float eq_refl eq_refl eq_refl
                (out_of_range env) (cholesterol_entries env) 90%float eq_refl) as Hc.
  apply andb_true_iff in Ha, Hs, Hd, Hc.
  destruct Ha as [Ha1 Ha2], Hs as [Hs1 Hs2], Hd as [Hd1 Hd2], Hc as [Hc1 Hc2].
  rewrite Ha1, Ha2, Hs1, Hs2, Hd1, Hd2, Hc1, Hc2. reflexivity.
Qed.

Lemma age_after_typing (env : Env) (typed : Z) :
  age (input_form (type_age env typed))
  = if (30 <=? typed) && (typed <=? 105) then typed
    else match out_of_range env with
         | Reject => age (input_form env)
         | Clamp => if typed <=? 30 then 30 else 105
         end.
Proof.
  unfold input_form, type_age.
  cbn [age age_entries out_of_range]. apply number_input_snoc.
Qed.

(** C6. The form holds four numeric inputs that start at age 50, systolic
    120.0, cholesterol 90.0 and diastolic 80.0.  Whatever is typed into them,
    the request read from the form lies within the domains, and only that
    request is ever handed to the classifier.  Typed into the form in any
    state, an age of 30 or of 105 is the age of the request; an age of 29 or
    of 106 never is: the request keeps the age the form held, or carries the
    nearer bound.  In general each of the four inputs takes an entry within
    its own bounds (30 to 105, 70.0 to 130.0, 60.0 to 120.0, 70.0 to 130.0)
    as typed and answers any other entry by keeping what it held or by
    moving to the bound on the side of the entry. *)
Theorem input_form_enforces_domains (env : Env) :
  in_domain (input_form env) = true
  /\ (forall call, In call (model_calls (page (app env))) ->
                   snd call = input_df (input_form env))
  /\ input_form (untouched env)
     = {| age := 50; systolic_bp := 120; diastolic_bp := 80; cholesterol := 90 |}
  /\ age (input_form (type_age env 30)) = 30
  /\ age (input_form (type_age env 105)) = 105
  /\ age (input_form (type_age env 29))
     = match out_of_range env with Reject => age (input_form env) | Clamp => 30 end
  /\ age (input_form (type_age env 106))
     = match out_of_range env with Reject => age (input_form env) | Clamp => 105 end
  /\ age (input_form (type_age (untouched env) 29))
     = match out_of_range env with Reject => 50 | Clamp => 30 end
  /\ age (input_form (type_age (untouched env) 106))
     = match out_of_range env with Reject => 50 | Clamp => 105 end
  /\ (forall typed : Z,
        age (input_form (type_age env typed))
        = if (30 <=? typed) && (typed <=? 105) then typed
          else match out_of_range env with
               | Reject => age (input_form env)
               | Clamp => if typed <=? 30 then 30 else 105
               end)
  /\ (forall typed : float,
        systolic_bp (input_form (type_systolic env typed))
        = if ((70 <=? typed) && (typed <=? 130))%float then typed
          else match out_of_range env with
               | Reject => systolic_bp (input_form env)
               | Clamp => if (typed <=? 70)%float then 70%float else 130%float
               end)
  /\ (forall typed : float,
        diastolic_bp (input_form (type_diastolic env typed))
        = if ((60 <=? typed) && (typed <=? 120))%float then typed
          else match out_of_range env with
               | Reject => diastolic_bp (input_form env)
               | Clamp => if (typed <=? 60)%float then 60%float else 120%float
               end)
  /\ (forall typed : float,
        cholesterol (input_form (type_cholesterol env typed))
        = if ((70 <=? typed) && (typed <=? 130))%float then typed
          else match out_of_range env with
               | Reject => cholesterol (input_form env)
               | Clamp => if (typed <=? 70)%float then 70%float else 130%float
               end).
Proof.
  split; [apply input_form_in_domain |].
  split.
  { intros call Hin. destruct (app_calls env) as (n & Hcalls & _).
    rewrite Hcalls in Hin. apply In_firstn in Hin.
    destruct Hin as [<- | [<- | []]]; reflexivity. }
  split; [reflexivity |].
  split; [rewrite age_after_typing; reflexivity |].
  split; [rewrite age_after_typing; reflexivity |].
  split; [rewrite age_after_typing; reflexivity |].
  split; [rewrite age_after_typing; reflexivity |].
  split; [rewrite age_after_typing; reflexivity |].
  split; [rewrite age_after_typing; reflexivity |].
  split; [exact (age_after_typing env) |].
  split; [| split]; intros typed; unfold input_form;
    [ unfold type_systolic; cbn [systolic_bp systolic_entries out_of_range]
    | unfold type_diastolic; cbn [diastolic_bp diastolic_entries out_of_range]
    | unfold type_cholesterol; cbn [cholesterol cholesterol_entries out_of_range] ];
    apply number_input_snoc.
Qed.

(** ** The invoker on a sound classifier *)

Lemma py_index_singleton {A : Type} (x : A) : py_index [x] 0 = Ok x.
Proof. reflexivity. Qed.

(** C3. With a classifier that keeps the contract of the artifact, invoking
    it on a request within the domains does not raise; the label returned is
    0 or 1, the confidence returned lies between 0 and 1, and it is the
    entry that indexing the probability vector by the label yields. *)
Theorem invoke_returns_label_and_probability (model : Model) (req : PredictionRequest) :
  fitted_binary_classifier model ->
  in_domain req = true ->
  exists (label : Z) (confidence : float) (pred_proba : list float),
    outcome (invoke model req) = Ok (label, confidence)
    /\ (label = 0 \/ label = 1)
    /\ is_probability confidence = true
    /\ predict_proba model (input_df req) = Ok [pred_proba]
    /\ py_index pred_proba label = Ok confidence.
Proof.
  intros Hmodel Hreq.
  destruct (Hmodel req Hreq) as (label & p0 & p1 & Hl & Hlabel & Hp & Hp0 & Hp1).
  rewrite invoke_cases. cbv zeta. rewrite Hl, Hp, !py_index_singleton.
  destruct Hlabel as [-> | ->].
  - exists 0, p0, [p0; p1]. repeat split; auto.
  - exists 1, p1, [p0; p1]. repeat split; auto.
Qed.

Lemma age_model_fitted : fitted_binary_classifier age_model.
Proof.
  intros req _. cbn.
  destruct (60 <=? age req).
  - exists 1, 0.25%float, 0.75%float. repeat split; auto.
  - exists 0, 0.75%float, 0.25%float. repeat split; auto.
Qed.

Lemma invoke_returns_label_and_probability_witness :
  exists (label : Z) (confidence : float) (pred_proba : list float),
    outcome (invoke age_model default_request) = Ok (label, confidence)
    /\ (label = 0 \/ label = 1)
    /\ is_probability confidence = true
    /\ predict_proba age_model (input_df default_request) = Ok [pred_proba]
    /\ py_index pred_proba label = Ok confidence.
Proof.
  apply (invoke_returns_label_and_probability age_model default_request).
  - exact age_model_fitted.
  - reflexivity.
Defined.

(** ** The range of the pulse pressure *)

Lemma in_domain_pressures (req : PredictionRequest) :
  in_domain req = true ->
  (70 <=? systolic_bp req)%float = true /\ (systolic_bp req <=? 130)%float = true
  /\ (60 <=? diastolic_bp req)%float = true /\ (diastolic_bp req <=? 120)%float = true.
Proof.
  unfold in_domain. intros H.
  repeat (apply andb_true_iff in H; destruct H as [H ?]). auto.
Qed.

Lemma between_is_finite (lo hi x : float) :
  is_finite lo = true -> is_finite hi = true ->
  (lo <=? x)%float = true -> (x <=? hi)%float = true -> is_finite x = true.
Proof.
  unfold is_finite. rewrite !leb_spec. apply Binary64.SFleb_between_real.
Qed.

Lemma probability_is_finite (p : float) : is_probability p = true -> is_finite p = true.
Proof.
  unfold is_probability. intros H. apply andb_true_iff in H. destruct H as [H0 H1].
  apply (between_is_finite 0 1); auto.
Qed.

(** C10. For a request within the domains the pulse pressure lies between
    -50.0 and 70.0 (and is therefore a finite number).  Both ends are
    reached: 70.0 over 120.0 gives -50.0 and 130.0 over 60.0 gives 70.0.  In
    the session where 70.0 and 120.0 are entered the run completes, the box
    of derived metrics shows -50.00 and the report carries the same
    figure. *)
Theorem pulse_pressure_range (req : PredictionRequest) :
  in_domain req = true ->
  ((-50 <=? pulse_pressure (systolic_bp req) (diastolic_bp req))%float = true
   /\ (pulse_pressure (systolic_bp req) (diastolic_bp req) <=? 70)%float = true
   /\ is_finite (pulse_pressure (systolic_bp req) (diastolic_bp req)) = true)
  /\ (let low := input_form low_pulse_session in
      in_domain low = true
      /\ (systolic_bp low, diastolic_bp low) = (70, 120)%float
      /\ pulse_pressure (systolic_bp low) (diastolic_bp low) = (-50)%float
      /\ (pulse_pressure (systolic_bp low) (diastolic_bp low) <? 0)%float = true
      /\ format_2f (pulse_pressure (systolic_bp low) (diastolic_bp low)) = "-50.00"
      /\ outcome (app low_pulse_session) = Ok tt
      /\ shows_markdown
           (derived_box "#2b2b2b" "#ffffff" (-50) (mean_arterial_pressure 70 120))
           (page (app low_pulse_session)) = true
      /\ map snd (downloads (page (app low_pulse_session)))
         = [report 0 0.75 (-50) (mean_arterial_pressure 70 120)])
  /\ pulse_pressure 130 60 = 70%float.
Proof.
  intros Hreq. split; [| split; [| reflexivity]].
  - destruct (in_domain_pressures req Hreq) as (Hs1 & Hs2 & Hd1 & Hd2).
    destruct (Binary64.sub_window _ _ Hs1 Hs2 Hd1 Hd2) as [Hlo Hhi].
    unfold pulse_pressure. repeat split; auto.
    apply (between_is_finite (-50) 70); auto.
  - vm_compute. repeat split.
Qed.

Lemma pulse_pressure_range_witness :
  (-50 <=? pulse_pressure 120 80)%float = true
  /\ (pulse_pressure 120 80 <=? 70)%float = true.
Proof.
  destruct (pulse_pressure_range default_request eq_refl) as ((Hlo & Hhi & _) & _).
  split; [exact Hlo | exact Hhi].
Defined.

(** * Further properties of the script *)

(** ** How the parts of a run compose *)

Lemma app_split (env : Env) :
  app env =
  match artifact env with
  | Raise e => ([], Raise e)
  | Ok model =>
    let head :=
      [Title "👁️🩺 Diabetic Retinopathy Prediction App";
       Markdown "This app predicts whether a person shows signs of diabetic retinopathy based on input health features."] in
    match outcome (welcome env) with
    | Ok _ => (head ++ page (welcome env) ++ page (after_welcome env model),
               outcome (after_welcome env model))
    | Raise e => (head ++ page (welcome env), Raise e)
    end
  end.
Proof.
  assert (H : app env =
              (model <- load_model env ;;
               st_title "👁️🩺 Diabetic Retinopathy Prediction App" ;;;
               st_markdown "This app predicts whether a person shows signs of diabetic retinopathy based on input health features." ;;;
               welcome env ;;;
               after_welcome env model)) by reflexivity.
  rewrite H. clear H. unfold load_model.
  destruct (artifact env) as [model | e]; [| reflexivity].
  destruct (welcome env) as [t [[] | e]]; [| reflexivity].
  cbn [lift bind st_title st_markdown emit].
  destruct (after_welcome env model) as [t2 r]. reflexivity.
Qed.

Lemma after_welcome_cases (env : Env) (model : Model) :
  after_welcome env model =
  let foot :=
    [Markdown "---"; Caption "👨‍⚕️ Created with ❤️ by Sathwik Patel using Streamlit"] in
  if submitted env then
    match outcome (on_submit env model (input_form env)) with
    | Ok _ => (page (on_submit env model (input_form env)) ++ foot, Ok tt)
    | Raise e => (page (on_submit env model (input_form env)), Raise e)
    end
  else (foot, Ok tt).
Proof.
  unfold after_welcome. cbv zeta.
  destruct (submitted env); [| reflexivity].
  destruct (on_submit env model (input_form env)) as [t [[] | e]]; reflexivity.
Qed.

Lemma on_submit_cases (env : Env) (model : Model) (req : PredictionRequest) :
  on_submit env model req =
  match outcome (invoke model req) with
  | Ok (prediction, confidence) =>
      (page (invoke model req)
       ++ page (render env prediction confidence
                  (pulse_pressure (systolic_bp req) (diastolic_bp req))
                  (mean_arterial_pressure (systolic_bp req) (diastolic_bp req))),
       Ok tt)
  | Raise e => (page (invoke model req), Raise e)
  end.
Proof.
  unfold on_submit, derived_metrics.
  destruct (invoke model req) as [t [[prediction confidence] | e]]; [| reflexivity].
  cbn [bind page outcome fst snd].
  pose proof (render_completes env prediction confidence
                (pulse_pressure (systolic_bp req) (diastolic_bp req))
                (mean_arterial_pressure (systolic_bp req) (diastolic_bp req))) as Hr.
  destruct (render env prediction confidence _ _) as [t2 r]. cbn in Hr. subst r.
  reflexivity.
Qed.

(** ** The animation slots *)

Lemma load_lottie_url_decoded (env : Env) (url : string) (r : Response) :
  requests_get env url = Ok r ->
  (status_code r = 200 -> json_body r <> None) ->
  load_lottie_url env url = ([], Ok (decoded r)).
Proof.
  intros Hr Hb. unfold load_lottie_url, decoded. rewrite Hr. cbn.
  destruct (status_code r =? 200) eqn:Hs; [| reflexivity]. cbn.
  apply Z.eqb_eq in Hs. specialize (Hb Hs).
  destruct (json_body r); [reflexivity | contradiction].
Qed.

Lemma animation_slot_shows (env : Env) (a0 a1 : json) :
  animation_slot env [a0; a1] 0
  = match drawing env a0 with Ok _ => ([slot a0], Ok tt) | Raise e => ([], Raise e) end
  /\ animation_slot env [a0; a1] 1
     = match drawing env a1 with Ok _ => ([slot a1], Ok tt) | Raise e => ([], Raise e) end.
Proof.
  unfold animation_slot, slot, drawing.
  change (py_index [a0; a1] 0) with (Ok a0).
  change (py_index [a0; a1] 1) with (Ok a1).
  cbn [bind lift]. rewrite !st_lottie_cases.
  destruct (truthy a0), (truthy a1); split; try reflexivity;
    match goal with
    | |- context [lottie_component env ?a 250] =>
        destruct (lottie_component env a 250); reflexivity
    end.
Qed.

(** The welcome block, once both documents are fetched. *)
Lemma welcome_of_documents (env : Env) (a0 a1 : json) :
  outcome (load_lottie_url env "https://assets1.lottiefiles.com/packages/lf20_3vbOcw.json")
  = Ok a0 ->
  outcome (load_lottie_url env "https://assets2.lottiefiles.com/packages/lf20_tutvdkg0.json")
  = Ok a1 ->
  welcome env =
  match drawing env a0 with
  | Raise e => ([Markdown "### 👋 Welcome to Your Eye Health Companion"], Raise e)
  | Ok _ =>
    match drawing env a1 with
    | Raise e => ([Markdown "### 👋 Welcome to Your Eye Health Companion"; slot a0], Raise e)
    | Ok _ => ([Markdown "### 👋 Welcome to Your Eye Health Companion"; slot a0; slot a1],
               Ok tt)
    end
  end.
Proof.
  intros H0 H1. unfold welcome, urls. cbn [for_each].
  pose proof (load_lottie_url_calls env
                "https://assets1.lottiefiles.com/packages/lf20_3vbOcw.json") as P0.
  pose proof (load_lottie_url_calls env
                "https://assets2.lottiefiles.com/packages/lf20_tutvdkg0.json") as P1.
  destruct (load_lottie_url env "https://assets1.lottiefiles.com/packages/lf20_3vbOcw.json")
    as [t0 o0].
  destruct (load_lottie_url env "https://assets2.lottiefiles.com/packages/lf20_tutvdkg0.json")
    as [t1 o1].
  cbn in H0, H1, P0, P1. subst.
  destruct (animation_slot_shows env a0 a1) as [E0 E1].
  cbn [bind ret st_markdown emit List.app]. rewrite E0, E1.
  destruct (drawing env a0) as [[] | e]; [| reflexivity].
  destruct (drawing env a1) as [[] | e]; reflexivity.
Qed.

Lemma welcome_fetch_failure (env : Env) :
  match outcome (load_lottie_url env
                   "https://assets1.lottiefiles.com/packages/lf20_3vbOcw.json") with
  | Raise e => outcome (welcome env) = Raise e
  | Ok _ =>
    match outcome (load_lottie_url env
                     "https://assets2.lottiefiles.com/packages/lf20_tutvdkg0.json") with
    | Raise e => outcome (welcome env) = Raise e
    | Ok _ => True
    end
  end.
Proof.
  unfold welcome, urls. cbn [for_each].
  destruct (load_lottie_url env "https://assets1.lottiefiles.com/packages/lf20_3vbOcw.json")
    as [t0 [a0 | e0]]; [| reflexivity].
  destruct (load_lottie_url env "https://assets2.lottiefiles.com/packages/lf20_tutvdkg0.json")
    as [t1 [a1 | e1]]; [exact I | reflexivity].
Qed.

(** X1. A run fails exactly when one of its stages fails, and then with the
    exception of the first stage that does, the stages being: loading the
    model, the first fetch, the second fetch, the animation component on the
    first document (entered when the document is truthy), the component on
    the second document, and, after a submission, invoking the classifier.
    Nothing else ends a run: the form, the derived metrics, the message, the
    gauge and the report raise nothing, and without a submission the
    classifier stage is not entered. *)
Theorem run_outcome (env : Env) :
  outcome (app env) =
  match artifact env with
  | Raise e => Raise e
  | Ok model =>
    match outcome (load_lottie_url env
                     "https://assets1.lottiefiles.com/packages/lf20_3vbOcw.json") with
    | Raise e => Raise e
    | Ok a0 =>
      match outcome (load_lottie_url env
                       "https://assets2.lottiefiles.com/packages/lf20_tutvdkg0.json") with
      | Raise e => Raise e
      | Ok a1 =>
        match (if truthy a0 then lottie_component env a0 250 else Ok tt) with
        | Raise e => Raise e
        | Ok _ =>
          match (if truthy a1 then lottie_component env a1 250 else Ok tt) with
          | Raise e => Raise e
          | Ok _ =>
            if submitted env then
              match outcome (invoke model (input_form env)) with
              | Raise e => Raise e
              | Ok _ => Ok tt
              end
            else Ok tt
          end
        end
      end
    end
  end.
Proof.
  rewrite app_split.
  destruct (artifact env) as [model | e]; [| reflexivity]. cbv zeta.
  pose proof (welcome_fetch_failure env) as Hf.
  pose proof (welcome_of_documents env) as Hd.
  destruct (outcome (load_lottie_url env
                       "https://assets1.lottiefiles.com/packages/lf20_3vbOcw.json"))
    as [a0 | e0]; [| rewrite Hf; reflexivity].
  destruct (outcome (load_lottie_url env
                       "https://assets2.lottiefiles.com/packages/lf20_tutvdkg0.json"))
    as [a1 | e1]; [| rewrite Hf; reflexivity].
  rewrite (Hd a0 a1 eq_refl eq_refl). unfold drawing.
  destruct (if truthy a0 then lottie_component env a0 250 else Ok tt) as [[] | e];
    [| reflexivity].
  destruct (if truthy a1 then lottie_component env a1 250 else Ok tt) as [[] | e];
    [| reflexivity].
  cbn [outcome snd]. rewrite after_welcome_cases. cbv zeta.
  destruct (submitted env); [| reflexivity].
  rewrite on_submit_cases.
  destruct (outcome (invoke model (input_form env))) as [[p c] | e]; reflexivity.
Qed.

Lemma welcome_page_shape (env : Env) :
  exists slots : trace,
    page (welcome env) = Markdown "### 👋 Welcome to Your Eye Health Companion" :: slots
    /\ forallb is_slot slots = true.
Proof.
  unfold welcome. rewrite page_bind. cbn -[for_each animation_slot].
  rewrite page_bind, for_each_load_page. cbn -[for_each animation_slot].
  destruct (outcome (for_each (load_lottie_url env) urls)) as [animations | e];
    [| exists []; split; reflexivity].
  assert (Hslot : forall i, forallb is_slot (page (animation_slot env animations i)) = true).
  { intros i. unfold animation_slot. rewrite page_bind. cbn -[st_lottie].
    destruct (py_index animations i) as [a | e]; [| reflexivity].
    destruct (truthy a); [| reflexivity].
    rewrite st_lottie_cases. destruct (lottie_component env a 250); reflexivity. }
  rewrite page_bind.
  exists (page (animation_slot env animations 0)
          ++ match outcome (animation_slot env animations 0) with
             | Ok _ => page (animation_slot env animations 1)
             | Raise _ => []
             end).
  split; [reflexivity |].
  rewrite forallb_app, Hslot.
  destruct (outcome (animation_slot env animations 0)); [apply Hslot | reflexivity].
Qed.

Lemma shows_caption_app (t1 t2 : trace) :
  shows_caption (t1 ++ t2) = shows_caption t1 || shows_caption t2.
Proof. apply existsb_app. Qed.

Lemma slots_no_caption (slots : trace) :
  forallb is_slot slots = true -> shows_caption slots = false.
Proof.
  induction slots as [| ev slots IH]; [reflexivity |].
  intros H. destruct ev; cbn [forallb is_slot andb] in H; try discriminate H;
    exact (IH H).
Qed.

Lemma invoke_page_calls_only (model : Model) (req : PredictionRequest) :
  forallb (fun ev => match ev with ModelCall _ _ => true | _ => false end)
          (page (invoke model req)) = true.
Proof.
  rewrite invoke_cases. cbv zeta.
  destruct (predict model (input_df req)) as [labels | e]; [| reflexivity].
  destruct (py_index labels 0) as [prediction | e]; [| reflexivity].
  destruct (predict_proba model (input_df req)) as [probabilities | e]; [| reflexivity].
  destruct (py_index probabilities 0) as [pred_proba | e]; [| reflexivity].
  destruct (py_index pred_proba prediction); reflexivity.
Qed.

Lemma calls_no_caption (t : trace) :
  forallb (fun ev => match ev with ModelCall _ _ => true | _ => false end) t = true ->
  shows_caption t = false.
Proof.
  induction t as [| ev t IH]; [reflexivity |].
  intros H. destruct ev; cbn [forallb andb] in H; try discriminate H;
    exact (IH H).
Qed.

Lemma render_no_caption (env : Env) (p : Z) (c pp mp : float) :
  shows_caption (page (render env p c pp mp)) = false.
Proof. unfold render, result_message. destruct (p =? 1); reflexivity. Qed.

(** X2. The footer caption is on the page exactly when the run completes:
    an exception at any stage leaves the page without its footer. *)
Theorem footer_shown_iff_run_completes (env : Env) :
  shows_caption (page (app env)) = completes (app env).
Proof.
  unfold completes. rewrite app_split.
  destruct (artifact env) as [model | e]; [| reflexivity]. cbv zeta.
  destruct (welcome_page_shape env) as (slots & Hpage & Hslots).
  destruct (outcome (welcome env)); cbn [page outcome fst snd];
    rewrite Hpage, !shows_caption_app.
  - rewrite after_welcome_cases. cbv zeta.
    change (shows_caption (Markdown "### 👋 Welcome to Your Eye Health Companion" :: slots))
      with (shows_caption slots).
    rewrite (slots_no_caption slots Hslots).
    destruct (submitted env); [| reflexivity].
    rewrite on_submit_cases.
    pose proof (calls_no_caption _ (invoke_page_calls_only model (input_form env))) as Hc.
    destruct (outcome (invoke model (input_form env))) as [[p c] | e];
      cbn [page outcome fst snd].
    + rewrite !shows_caption_app, Hc, render_no_caption. reflexivity.
    + rewrite Hc. reflexivity.
  - change (shows_caption (Markdown "### 👋 Welcome to Your Eye Health Companion" :: slots))
      with (shows_caption slots).
    rewrite (slots_no_caption slots Hslots). reflexivity.
Qed.

(** X3. When both requests are answered, an answer of 200 carries a JSON
    body, and the animation component takes every truthy document it is
    handed, the welcome block completes and each slot is decided by its own
    answer alone: the animation for a 200 whose document is truthy, the
    warning for any other status and for a 200 whose document is empty. *)
Theorem slots_follow_their_own_answers (env : Env) (r0 r1 : Response) :
  requests_get env "https://assets1.lottiefiles.com/packages/lf20_3vbOcw.json" = Ok r0 ->
  requests_get env "https://assets2.lottiefiles.com/packages/lf20_tutvdkg0.json" = Ok r1 ->
  (status_code r0 = 200 -> json_body r0 <> None) ->
  (status_code r1 = 200 -> json_body r1 <> None) ->
  (truthy (decoded r0) = true -> lottie_component env (decoded r0) 250 = Ok tt) ->
  (truthy (decoded r1) = true -> lottie_component env (decoded r1) 250 = Ok tt) ->
  welcome env =
  ([Markdown "### 👋 Welcome to Your Eye Health Companion";
    slot (decoded r0); slot (decoded r1)], Ok tt).
Proof.
  intros H0 H1 Hb0 Hb1 Hc0 Hc1.
  rewrite (welcome_of_documents env (decoded r0) (decoded r1));
    [| rewrite (load_lottie_url_decoded env _ r0 H0 Hb0); reflexivity
     | rewrite (load_lottie_url_decoded env _ r1 H1 Hb1); reflexivity].
  unfold drawing.
  destruct (truthy (decoded r0)); [rewrite Hc0 by reflexivity |];
    (destruct (truthy (decoded r1)); [rewrite Hc1 by reflexivity |]); reflexivity.
Qed.

Lemma slots_follow_their_own_answers_witness :
  welcome (default_session mixed_network) =
  ([Markdown "### 👋 Welcome to Your Eye Health Companion";
    Warning "⚠️ Animation couldn't load.";
    Lottie lottie_document 250], Ok tt).
Proof.
  apply (slots_follow_their_own_answers (default_session mixed_network)
           {| status_code := 404; json_body := None |}
           {| status_code := 200; json_body := Some lottie_document |});
    try reflexivity; cbn; intros H; first [discriminate H | discriminate].
Defined.

(** X4. Both animations are fetched before either is shown: when the first
    fetch returns and the second raises, the welcome block ends with that
    exception and the first animation never reaches the page. *)
Theorem second_fetch_failure_hides_first_animation (env : Env) (a0 : json) (e : exn) :
  outcome (load_lottie_url env "https://assets1.lottiefiles.com/packages/lf20_3vbOcw.json")
  = Ok a0 ->
  outcome (load_lottie_url env "https://assets2.lottiefiles.com/packages/lf20_tutvdkg0.json")
  = Raise e ->
  welcome env = ([Markdown "### 👋 Welcome to Your Eye Health Companion"], Raise e).
Proof.
  intros H0 H1. unfold welcome, urls. cbn [for_each].
  pose proof (load_lottie_url_calls env
                "https://assets1.lottiefiles.com/packages/lf20_3vbOcw.json") as P0.
  pose proof (load_lottie_url_calls env
                "https://assets2.lottiefiles.com/packages/lf20_tutvdkg0.json") as P1.
  destruct (load_lottie_url env "https://assets1.lottiefiles.com/packages/lf20_3vbOcw.json")
    as [t0 o0].
  destruct (load_lottie_url env "https://assets2.lottiefiles.com/packages/lf20_tutvdkg0.json")
    as [t1 o1].
  cbn in H0, H1, P0, P1. subst. reflexivity.
Qed.

Lemma second_fetch_failure_hides_first_animation_witness :
  welcome (default_session second_fails_network)
  = ([Markdown "### 👋 Welcome to Your Eye Health Companion"], Raise ConnectionError).
Proof.
  apply (second_fetch_failure_hides_first_animation
           (default_session second_fails_network) lottie_document ConnectionError);
    reflexivity.
Defined.

(** X17. When the animation component refuses the first fetched document,
    the run ends there with the exception of the component: the page stops
    at the heading of the welcome block, no warning takes the place of the
    animation, the second slot is not reached, and neither the form nor
    anything of a prediction nor the footer follows. *)
Theorem refused_first_animation_ends_run
    (env : Env) (model : Model) (a0 a1 : json) (e : exn) :
  artifact env = Ok model ->
  outcome (load_lottie_url env "https://assets1.lottiefiles.com/packages/lf20_3vbOcw.json")
  = Ok a0 ->
  outcome (load_lottie_url env "https://assets2.lottiefiles.com/packages/lf20_tutvdkg0.json")
  = Ok a1 ->
  truthy a0 = true ->
  lottie_component env a0 250 = Raise e ->
  welcome env = ([Markdown "### 👋 Welcome to Your Eye Health Companion"], Raise e)
  /\ outcome (app env) = Raise e
  /\ filter is_slot (page (app env)) = []
  /\ results (page (app env)) = []
  /\ shows_caption (page (app env)) = false.
Proof.
  intros Ha H0 H1 Ht Hc.
  assert (Hw : welcome env
               = ([Markdown "### 👋 Welcome to Your Eye Health Companion"], Raise e)).
  { rewrite (welcome_of_documents env a0 a1 H0 H1). unfold drawing.
    rewrite Ht, Hc. reflexivity. }
  split; [exact Hw |].
  rewrite (app_stops_with_welcome env model _ e Ha Hw).
  repeat split.
Qed.

Lemma refused_first_animation_ends_run_witness :
  welcome (default_session list_network)
  = ([Markdown "### 👋 Welcome to Your Eye Health Companion"], Raise StreamlitAPIException)
  /\ outcome (app (default_session list_network)) = Raise StreamlitAPIException
  /\ filter is_slot (page (app (default_session list_network))) = []
  /\ results (page (app (default_session list_network))) = []
  /\ shows_caption (page (app (default_session list_network))) = false.
Proof.
  apply (refused_first_animation_ends_run (default_session list_network) age_model
           (JArray [JInt 1; JInt 2]) (JArray [JInt 1; JInt 2]) StreamlitAPIException);
    reflexivity.
Defined.

(** X18. When the first slot is filled and the animation component refuses
    the second fetched document, the run ends there with the exception of
    the component: the first slot stays on the page as it was filled, the
    second slot stays empty, and neither the form nor anything of a
    prediction nor the footer follows. *)
Theorem refused_second_animation_ends_run
    (env : Env) (model : Model) (a0 a1 : json) (e : exn) :
  artifact env = Ok model ->
  outcome (load_lottie_url env "https://assets1.lottiefiles.com/packages/lf20_3vbOcw.json")
  = Ok a0 ->
  outcome (load_lottie_url env "https://assets2.lottiefiles.com/packages/lf20_tutvdkg0.json")
  = Ok a1 ->
  (truthy a0 = true -> lottie_component env a0 250 = Ok tt) ->
  truthy a1 = true ->
  lottie_component env a1 250 = Raise e ->
  welcome env
  = ([Markdown "### 👋 Welcome to Your Eye Health Companion"; slot a0], Raise e)
  /\ outcome (app env) = Raise e
  /\ filter is_slot (page (app env)) = [slot a0]
  /\ results (page (app env)) = []
  /\ shows_caption (page (app env)) = false.
Proof.
  intros Ha H0 H1 Hc0 Ht Hc.
  assert (Hw : welcome env
               = ([Markdown "### 👋 Welcome to Your Eye Health Companion"; slot a0],
                  Raise e)).
  { rewrite (welcome_of_documents env a0 a1 H0 H1). unfold drawing.
    rewrite Ht, Hc.
    destruct (truthy a0); [rewrite Hc0 by reflexivity |]; reflexivity. }
  split; [exact Hw |].
  rewrite (app_stops_with_welcome env model _ e Ha Hw).
  unfold slot. destruct (truthy a0); repeat split.
Qed.

Lemma refused_second_animation_ends_run_witness :
  welcome (default_session second_list_network)
  = ([Markdown "### 👋 Welcome to Your Eye Health Companion"; Lottie lottie_document 250],
     Raise StreamlitAPIException)
  /\ outcome (app (default_session second_list_network)) = Raise StreamlitAPIException
  /\ filter is_slot (page (app (default_session second_list_network)))
     = [Lottie lottie_document 250]
  /\ results (page (app (default_session second_list_network))) = []
  /\ shows_caption (page (app (default_session second_list_network))) = false.
Proof.
  apply (refused_second_animation_ends_run (default_session second_list_network) age_model
           lottie_document (JArray [JInt 1; JInt 2]) StreamlitAPIException);
    reflexivity.
Defined.

Lemma outside_slots_app (t1 t2 : trace) :
  outside_slots (t1 ++ t2) = outside_slots t1 ++ outside_slots t2.
Proof. apply filter_app. Qed.

Lemma outside_slots_of_slots (slots : trace) :
  forallb is_slot slots = true -> outside_slots slots = [].
Proof.
  induction slots as [| ev slots IH]; [reflexivity |].
  intros H. cbn [forallb] in H. apply andb_true_iff in H. destruct H as [Hev Hs].
  unfold outside_slots. cbn [filter]. rewrite Hev. cbn [negb]. exact (IH Hs).
Qed.

Lemma welcome_outside_slots (env : Env) :
  outside_slots (page (welcome env))
  = [Markdown "### 👋 Welcome to Your Eye Health Companion"].
Proof.
  destruct (welcome_page_shape env) as (slots & Hpage & Hslots).
  rewrite Hpage.
  change (outside_slots (Markdown "### 👋 Welcome to Your Eye Health Companion" :: slots))
    with (Markdown "### 👋 Welcome to Your Eye Health Companion" :: outside_slots slots).
  now rewrite (outside_slots_of_slots slots Hslots).
Qed.

Lemma completes_welcome (env : Env) :
  completes (welcome env) = true -> outcome (welcome env) = Ok tt.
Proof.
  unfold completes. destruct (outcome (welcome env)) as [[] | e];
    [reflexivity | discriminate].
Qed.

(** X5. What the network answers touches the two animation slots only: two
    sessions that differ just in the network, and in both of which the
    welcome block completes, have the same page outside the slots and end
    the same way. *)
Theorem network_changes_only_the_slots (env : Env) (network : string -> result Response) :
  completes (welcome env) = true ->
  completes (welcome (with_network env network)) = true ->
  outside_slots (page (app (with_network env network))) = outside_slots (page (app env))
  /\ outcome (app (with_network env network)) = outcome (app env).
Proof.
  intros H1 H2. apply completes_welcome in H1, H2.
  rewrite !app_split.
  change (artifact (with_network env network)) with (artifact env).
  destruct (artifact env) as [model | e]; [| split; reflexivity]. cbv zeta.
  rewrite H1, H2.
  change (after_welcome (with_network env network) model) with (after_welcome env model).
  cbn [page outcome fst snd]. split; [| reflexivity].
  rewrite !outside_slots_app, !welcome_outside_slots. reflexivity.
Qed.

Lemma network_changes_only_the_slots_witness :
  outside_slots (page (app (with_network (default_session healthy_network) mixed_network)))
  = outside_slots (page (app (default_session healthy_network)))
  /\ outcome (app (with_network (default_session healthy_network) mixed_network))
     = outcome (app (default_session healthy_network)).
Proof.
  apply (network_changes_only_the_slots (default_session healthy_network) mixed_network);
    reflexivity.
Defined.

(** ** The theme *)

Lemma outside_markdown_app (t1 t2 : trace) :
  outside_markdown (t1 ++ t2) = outside_markdown t1 ++ outside_markdown t2.
Proof. apply filter_app. Qed.

Lemma render_outside_markdown (env : Env) (theme : option string)
    (p : Z) (c pp mp : float) :
  outside_markdown (page (render (with_theme env theme) p c pp mp))
  = outside_markdown (page (render env p c pp mp)).
Proof. unfold render, result_message. destruct (p =? 1); reflexivity. Qed.

(** X6. The configured theme reaches nothing but markdown text: with any
    other theme the run ends the same way and every element of the page
    that is not markdown (the classifier calls, the message and its
    expander, the gauge, the report, the slots, the footer) is the same. *)
Theorem theme_changes_only_markdown (env : Env) (theme : option string) :
  outside_markdown (page (app (with_theme env theme))) = outside_markdown (page (app env))
  /\ outcome (app (with_theme env theme)) = outcome (app env).
Proof.
  rewrite !app_split.
  change (artifact (with_theme env theme)) with (artifact env).
  change (welcome (with_theme env theme)) with (welcome env).
  destruct (artifact env) as [model | e]; [| split; reflexivity]. cbv zeta.
  destruct (outcome (welcome env)); [| split; reflexivity].
  rewrite !after_welcome_cases. cbv zeta.
  change (submitted (with_theme env theme)) with (submitted env).
  change (input_form (with_theme env theme)) with (input_form env).
  destruct (submitted env); [| split; reflexivity].
  rewrite !on_submit_cases.
  destruct (outcome (invoke model (input_form env))) as [[p c] | e];
    cbn [page outcome fst snd]; split; try reflexivity.
  rewrite !outside_markdown_app, render_outside_markdown. reflexivity.
Qed.

(** ** Runs without a submission and runs in which the classifier fails *)

Lemma results_app (t1 t2 : trace) : results (t1 ++ t2) = results t1 ++ results t2.
Proof. apply filter_app. Qed.

Lemma results_of_slots (slots : trace) :
  forallb is_slot slots = true -> results slots = [].
Proof.
  induction slots as [| ev slots IH]; [reflexivity |].
  intros H. destruct ev; cbn [forallb is_slot andb] in H; try discriminate H;
    exact (IH H).
Qed.

(** X7. Until the form is submitted nothing of a prediction is on the page:
    no classifier call, no message, no expander, no gauge and no report. *)
Theorem no_submission_no_results (env : Env) :
  submitted env = false -> results (page (app env)) = [].
Proof.
  intros Hs. rewrite app_split.
  destruct (artifact env) as [model | e]; [| reflexivity]. cbv zeta.
  destruct (welcome_page_shape env) as (slots & Hpage & Hslots).
  assert (Hw : results (page (welcome env)) = []).
  { rewrite Hpage. exact (results_of_slots slots Hslots). }
  destruct (outcome (welcome env)); cbn [page fst]; rewrite !results_app, Hw.
  - rewrite after_welcome_cases, Hs. reflexivity.
  - reflexivity.
Qed.

Lemma no_submission_no_results_witness :
  results (page (app (with_network low_pulse_session mixed_network))) <> []
  /\ results (page (app {| artifact := Ok age_model; requests_get := mixed_network;
                           lottie_component := object_component;
                           theme_base := None; out_of_range := Clamp;
                           age_entries := [61]; systolic_entries := [];
                           cholesterol_entries := []; diastolic_entries := [];
                           submitted := false |})) = [].
Proof.
  split; [discriminate |].
  apply no_submission_no_results. reflexivity.
Defined.

(** X8. When the classifier fails, whether it raises or returns something
    the script cannot index, the failure is the outcome of the submission
    and nothing but the calls made so far is on the page: no derived
    metrics, no message, no gauge, no report. *)
Theorem classifier_failure_renders_nothing
    (env : Env) (model : Model) (req : PredictionRequest) (e : exn) :
  outcome (invoke model req) = Raise e ->
  outcome (on_submit env model req) = Raise e
  /\ forallb is_call (page (on_submit env model req)) = true
  /\ (List.length (page (on_submit env model req)) <= 2)%nat.
Proof.
  intros H. rewrite on_submit_cases, H. cbn [page outcome fst snd].
  split; [reflexivity |].
  revert H. rewrite invoke_cases. cbv zeta.
  destruct (predict model (input_df req)) as [labels | e1]; [| intros _; split; cbn; auto].
  destruct (py_index labels 0) as [prediction | e1]; [| intros _; split; cbn; auto].
  destruct (predict_proba model (input_df req)) as [probabilities | e1];
    [| intros _; split; cbn; auto].
  destruct (py_index probabilities 0) as [pred_proba | e1]; [| intros _; split; cbn; auto].
  destruct (py_index pred_proba prediction); intros _; split; cbn; auto.
Qed.

Lemma classifier_failure_renders_nothing_witness :
  outcome (on_submit (default_session healthy_network) raising_model default_request)
  = Raise ValueError
  /\ forallb is_call
       (page (on_submit (default_session healthy_network) raising_model default_request))
     = true
  /\ (List.length
        (page (on_submit (default_session healthy_network) raising_model default_request))
      <= 2)%nat.
Proof.
  apply (classifier_failure_renders_nothing (default_session healthy_network)
           raising_model default_request ValueError).
  reflexivity.
Defined.

(** ** Indexing the probability vector *)

Lemma py_index_in_range {A : Type} (xs : list A) (i : Z) :
  - Z.of_nat (List.length xs) <= i < Z.of_nat (List.length xs) ->
  exists x, py_index xs i = Ok x
            /\ nth_error xs (Z.to_nat (i mod Z.of_nat (List.length xs))) = Some x.
Proof.
  intros Hi. unfold py_index. cbv zeta.
  set (n := Z.of_nat (List.length xs)) in *.
  assert (Hj : 0 <= (if i <? 0 then i + n else i) < n)
    by (destruct (Z.ltb_spec i 0); lia).
  assert (Hmod : i mod n = (if i <? 0 then i + n else i)).
  { destruct (Z.ltb_spec i 0).
    - symmetry. apply (Z.mod_unique i n (-1)); lia.
    - apply Z.mod_small. lia. }
  rewrite Hmod.
  destruct (Z.leb_spec 0 (if i <? 0 then i + n else i)); [| lia].
  destruct (Z.ltb_spec (if i <? 0 then i + n else i) n); [| lia].
  cbn [andb].
  destruct (nth_error xs (Z.to_nat (if i <? 0 then i + n else i))) as [x |] eqn:Hx.
  - exists x. split; reflexivity.
  - exfalso. apply nth_error_None in Hx. subst n. lia.
Qed.

Lemma py_index_out_of_range {A : Type} (xs : list A) (i : Z) :
  ~ (- Z.of_nat (List.length xs) <= i < Z.of_nat (List.length xs)) ->
  py_index xs i = Raise IndexError.
Proof.
  intros Hi. unfold py_index. cbv zeta.
  set (n := Z.of_nat (List.length xs)) in *.
  assert (Hj : ~ (0 <= (if i <? 0 then i + n else i) < n))
    by (destruct (Z.ltb_spec i 0); lia).
  set (j := if i <? 0 then i + n else i) in *.
  destruct (Z.leb_spec 0 j); destruct (Z.ltb_spec j n);
    cbn [andb]; try reflexivity.
  exfalso. apply Hj. lia.
Qed.

(** X9. Given one label and one probability vector from the classifier, the
    invoker returns exactly when the label lies in [-n, n) for a vector of
    n entries, and raises IndexError otherwise.  A negative label counts
    from the end of the vector, so that -1 reports the last probability. *)
Theorem invoke_returns_iff_label_indexes_vector
    (model : Model) (req : PredictionRequest)
    (labels : list Z) (label : Z) (probabilities : list (list float)) (vector : list float) :
  predict model (input_df req) = Ok labels ->
  py_index labels 0 = Ok label ->
  predict_proba model (input_df req) = Ok probabilities ->
  py_index probabilities 0 = Ok vector ->
  let n := Z.of_nat (List.length vector) in
  (- n <= label < n ->
   exists confidence,
     outcome (invoke model req) = Ok (label, confidence)
     /\ nth_error vector (Z.to_nat (label mod n)) = Some confidence)
  /\ (~ (- n <= label < n) -> outcome (invoke model req) = Raise IndexError).
Proof.
  intros Hl Hp Hps Hv n. rewrite invoke_cases. cbv zeta.
  rewrite Hl, Hp, Hps, Hv. cbn [outcome snd]. split; intros Hi.
  - destruct (py_index_in_range vector label Hi) as (c & Hc & Hn).
    exists c. rewrite Hc. split; [reflexivity | exact Hn].
  - rewrite (py_index_out_of_range vector label Hi). reflexivity.
Qed.

Lemma invoke_returns_iff_label_indexes_vector_witness :
  exists confidence,
    outcome (invoke wrapping_model default_request) = Ok (-1, confidence)
    /\ nth_error [0.75; 0.25]%float (Z.to_nat (-1 mod 2)) = Some confidence.
Proof.
  apply (invoke_returns_iff_label_indexes_vector wrapping_model default_request
           [-1] (-1) [[0.75; 0.25]%float] [0.75; 0.25]%float
           eq_refl eq_refl eq_refl eq_refl).
  cbn. lia.
Defined.

(** ** What a completed submission shows *)

Lemma invoke_page_when_ok (model : Model) (req : PredictionRequest) (r : Z * float) :
  outcome (invoke model req) = Ok r ->
  page (invoke model req)
  = [ModelCall "predict" (input_df req); ModelCall "predict_proba" (input_df req)].
Proof.
  rewrite invoke_cases. cbv zeta.
  destruct (predict model (input_df req)) as [labels | e]; [| discriminate].
  destruct (py_index labels 0) as [prediction | e]; [| discriminate].
  destruct (predict_proba model (input_df req)) as [probabilities | e]; [| discriminate].
  destruct (py_index probabilities 0) as [pred_proba | e]; [| discriminate].
  destruct (py_index pred_proba prediction); [reflexivity | discriminate].
Qed.

Lemma render_page (env : Env) (p : Z) (c pp mp : float) :
  page (render env p c pp mp) =
  Markdown (derived_box (if is_dark env then "#2b2b2b" else "#f0f0f5")
                        (if is_dark env then "#ffffff" else "#000000") pp mp)
  :: page (result_message p c)
  ++ [Markdown "### 📊 Model Confidence Level";
      PlotlyChart (gauge p c);
      DownloadButton "📄 Download Report" (report p c pp mp) "dr_prediction_report.txt"].
Proof. unfold render, result_message. destruct (p =? 1); reflexivity. Qed.

(** X10. When the invoker returns a label and a confidence, the submission
    completes and everything it shows is built from that one pair and from
    the two pressures of the request: one gauge, one report under the fixed
    file name, the box of derived metrics in the colours of the theme, and
    exactly one of the error and the success message. *)
Theorem submission_shows_one_consistent_result
    (env : Env) (model : Model) (req : PredictionRequest) (prediction : Z) (confidence : float) :
  outcome (invoke model req) = Ok (prediction, confidence) ->
  let pp := pulse_pressure (systolic_bp req) (diastolic_bp req) in
  let mp := mean_arterial_pressure (systolic_bp req) (diastolic_bp req) in
  let t := page (on_submit env model req) in
  outcome (on_submit env model req) = Ok tt
  /\ charts t = [gauge prediction confidence]
  /\ downloads t = [("dr_prediction_report.txt", report prediction confidence pp mp)]
  /\ shows_markdown
       (derived_box (if is_dark env then "#2b2b2b" else "#f0f0f5")
                    (if is_dark env then "#ffffff" else "#000000") pp mp) t = true
  /\ xorb (shows_error t) (shows_success t) = true
  /\ model_calls t = both_calls (input_df req).
Proof.
  intros H pp mp t. subst t.
  rewrite on_submit_cases, H, (invoke_page_when_ok model req _ H).
  cbn [page outcome fst snd]. fold pp mp. rewrite render_page.
  unfold result_message.
  split; [reflexivity |].
  destruct (prediction =? 1);
    (split; [reflexivity |]); (split; [reflexivity |]);
    (split; [| split; reflexivity]);
    unfold shows_markdown; cbn [List.app existsb orb];
    rewrite String.eqb_refl; reflexivity.
Qed.

Lemma submission_shows_one_consistent_result_witness :
  let t := page (on_submit low_pulse_session contrarian_model default_request) in
  outcome (on_submit low_pulse_session contrarian_model default_request) = Ok tt
  /\ charts t = [gauge 1 0.25]
  /\ downloads t
     = [("dr_prediction_report.txt",
         report 1 0.25 (pulse_pressure 120 80) (mean_arterial_pressure 120 80))]
  /\ shows_markdown
       (derived_box "#2b2b2b" "#ffffff" (pulse_pressure 120 80)
          (mean_arterial_pressure 120 80)) t = true
  /\ xorb (shows_error t) (shows_success t) = true
  /\ model_calls t = both_calls (input_df default_request).
Proof.
  apply (submission_shows_one_consistent_result low_pulse_session contrarian_model
           default_request 1 0.25%float).
  reflexivity.
Defined.

(** ** The gauge and the message *)



(** Outside the two labels the gauge contradicts itself: for 2 the bar is
    red under the title of no DR. *)
Remark gauge_of_label_two :
  bar_color (gauge 2 0.75%float) = "red"
  /\ title_text (gauge 2 0.75%float) = "Confidence in No DR (%)".
Proof. split; reflexivity. Qed.

(** ** The printed figures *)

(** X12. The figure printed with two decimals for a finite number
    [m * 2^e] is a nearest multiple of one hundredth: it is exact when the
    number is an integer, and otherwise its distance to the number is at
    most half a hundredth. *)
Theorem printed_hundredths_are_nearest (m : positive) (e : Z) :
  (0 <= e -> hundredths m e = 100 * (Zpos m * 2 ^ e))
  /\ (e < 0 ->
      2 * Z.abs (hundredths m e * 2 ^ (- e) - 100 * Zpos m) <= 2 ^ (- e)).
Proof.
  unfold hundredths. split; intros He.
  - destruct (Z.leb_spec 0 e); [ring | lia].
  - destruct (Z.leb_spec 0 e); [lia |].
    pose proof (round_half_even_nearest (Zpos m * 100) (2 ^ (- e))
                  (Z.pow_pos_nonneg 2 (- e) ltac:(lia) ltac:(lia))) as Hr.
    replace (100 * Zpos m) with (Zpos m * 100) by ring.
    rewrite Z.abs_mul in Hr. exact Hr.
Qed.

Lemma printed_hundredths_are_nearest_witness :
  hundredths 5 1 = 100 * (5 * 2 ^ 1)
  /\ 2 * Z.abs (hundredths 1 (-3) * 2 ^ 3 - 100 * 1) <= 2 ^ 3.
Proof.
  split.
  - apply (proj1 (printed_hundredths_are_nearest 5 1)). lia.
  - apply (proj2 (printed_hundredths_are_nearest 1 (-3))). lia.
Defined.

(** X13. Whatever is typed into the form, the pulse pressure computed from
    it lies between -50.0 and 70.0 and is printed, in the box and in the
    report, as a numeral with exactly two fractional digits. *)
Theorem pulse_pressure_of_every_session (env : Env) :
  let req := input_form env in
  let pp := pulse_pressure (systolic_bp req) (diastolic_bp req) in
  (-50 <=? pp)%float = true
  /\ (pp <=? 70)%float = true
  /\ two_decimal_numeral (format_2f pp).
Proof.
  cbv zeta.
  destruct (in_domain_pressures _ (input_form_in_domain env)) as (Hs1 & Hs2 & Hd1 & Hd2).
  destruct (Binary64.sub_window _ _ Hs1 Hs2 Hd1 Hd2) as [Hlo Hhi].
  unfold pulse_pressure. split; [exact Hlo |]. split; [exact Hhi |].
  apply format_2f_two_decimals.
  apply (between_is_finite (-50) 70); auto.
Qed.

(** ** The gauge on its axis *)

(** X14. For a confidence between 0 and 1 the value of the gauge and its
    threshold marker, both the confidence times 100 in binary64 arithmetic,
    lie on the axis of the gauge, between 0 and 100. *)
Theorem gauge_value_within_axis (prediction : Z) (confidence : float) :
  is_probability confidence = true ->
  let g := gauge prediction confidence in
  (0 <=? value g)%float = true
  /\ (value g <=? 100)%float = true
  /\ threshold_value g = value g
  /\ axis_range g = (0, 100).
Proof.
  unfold is_probability. intros H. apply andb_true_iff in H. destruct H as [H0 H1].
  destruct (Binary64.mul_100_window confidence H0 H1) as [Hlo Hhi].
  cbv zeta. cbn [gauge value threshold_value axis_range].
  repeat split; assumption.
Qed.

Lemma gauge_value_within_axis_witness :
  let g := gauge 1 0.75%float in
  (0 <=? value g)%float = true
  /\ (value g <=? 100)%float = true
  /\ threshold_value g = value g
  /\ axis_range g = (0, 100).
Proof.
  apply (gauge_value_within_axis 1 0.75%float). reflexivity.
Defined.

(** ** The mean arterial pressure and the figures of the report *)

(** X15. Whatever is typed into the form, the mean arterial pressure
    computed from it in binary64 arithmetic lies between 63.0 and 124.0 and
    is printed as a numeral with exactly two fractional digits. *)
Theorem mean_arterial_pressure_of_every_session (env : Env) :
  let req := input_form env in
  let mp := mean_arterial_pressure (systolic_bp req) (diastolic_bp req) in
  (63 <=? mp)%float = true
  /\ (mp <=? 124)%float = true
  /\ two_decimal_numeral (format_2f mp).
Proof.
  cbv zeta.
  destruct (in_domain_pressures _ (input_form_in_domain env)) as (Hs1 & Hs2 & Hd1 & Hd2).
  destruct (Binary64.map_window _ _ Hs1 Hs2 Hd1 Hd2) as [Hlo Hhi].
  unfold mean_arterial_pressure. split; [exact Hlo |]. split; [exact Hhi |].
  apply format_2f_two_decimals.
  apply (between_is_finite 63 124); auto.
Qed.

(** X16. In every session, when the invoker returns a confidence between 0
    and 1, the report offered for download is the five-line text whose label
    is DR Present or No DR and whose three figures are numerals with exactly
    two fractional digits. *)
Theorem report_of_every_session_is_well_formed
    (env : Env) (model : Model) (label : Z) (confidence : float) :
  outcome (invoke model (input_form env)) = Ok (label, confidence) ->
  is_probability confidence = true ->
  exists c_text pp_text mp_text : string,
    two_decimal_numeral c_text
    /\ two_decimal_numeral pp_text
    /\ two_decimal_numeral mp_text
    /\ downloads (page (on_submit env model (input_form env)))
       = [("dr_prediction_report.txt",
           (nl ++ "Prediction: " ++ (if (label =? 0)%Z then "No DR" else "DR Present") ++ nl
            ++ "Confidence: " ++ c_text ++ nl
            ++ "Pulse Pressure: " ++ pp_text ++ nl
            ++ "Mean Arterial Pressure: " ++ mp_text ++ nl)%string)].
Proof.
  intros Hinv Hc.
  set (req := input_form env) in *.
  exists (format_2f confidence),
         (format_2f (pulse_pressure (systolic_bp req) (diastolic_bp req))),
         (format_2f (mean_arterial_pressure (systolic_bp req) (diastolic_bp req))).
  destruct (in_domain_pressures _ (input_form_in_domain env)) as (Hs1 & Hs2 & Hd1 & Hd2).
  fold req in Hs1, Hs2, Hd1, Hd2.
  destruct (Binary64.sub_window _ _ Hs1 Hs2 Hd1 Hd2) as [Hplo Hphi].
  destruct (Binary64.map_window _ _ Hs1 Hs2 Hd1 Hd2) as [Hmlo Hmhi].
  split; [apply format_2f_two_decimals, probability_is_finite, Hc |].
  split; [apply format_2f_two_decimals, (between_is_finite (-50) 70); auto |].
  split; [apply format_2f_two_decimals, (between_is_finite 63 124); auto |].
  rewrite on_submit_cases, Hinv, (invoke_page_when_ok model req _ Hinv).
  cbn [page fst]. rewrite render_page. unfold result_message, report, label_text.
  destruct (label =? 1); destruct (label =? 0); reflexivity.
Qed.

Lemma report_of_every_session_is_well_formed_witness :
  exists c_text pp_text mp_text : string,
    two_decimal_numeral c_text
    /\ two_decimal_numeral pp_text
    /\ two_decimal_numeral mp_text
    /\ downloads (page (on_submit low_pulse_session age_model (input_form low_pulse_session)))
       = [("dr_prediction_report.txt",
           (nl ++ "Prediction: No DR" ++ nl
            ++ "Confidence: " ++ c_text ++ nl
            ++ "Pulse Pressure: " ++ pp_text ++ nl
            ++ "Mean Arterial Pressure: " ++ mp_text ++ nl)%string)].
Proof.
  apply (report_of_every_session_is_well_formed low_pulse_session age_model 0 0.75%float);
    reflexivity.
Defined.
